(** * Ventilator-Dev: sensor acquisition engine and alarm lifecycle

    A shallow embedding of [vent/io/devices/sensors.py] and
    [vent/alarm/alarm.py].

    - Python floats are IEEE binary64 values and the observation buffer
      holds binary16 values ([np.float16]); both are [spec_float]s of
      the Standard Library, with the rounding of each format.
    - A method is a function on the object's state that returns either a
      value or the exception it raised, together with the state it left
      behind (a raised exception does not roll back earlier
      assignments).
    - The wall clock ([time.time()]) and the outside world (ADC
      conversions, I2C frames, the pseudo random generator) are explicit:
      the clock reading is an argument, the others are read from an
      indexed stream kept in the device's state. *)

From Stdlib Require Import ZArith List Bool Lia.
From Stdlib Require Import Floats.SpecFloat.
From stdpp Require Import base option list strings gmap.

Local Open Scope Z_scope.

(** ** Exceptions and results *)

Inductive exn : Type :=
  | RuntimeWarning
  | ZeroDivisionError
  | IndexError
  | ValueError
  | TransportError.

Inductive result (A : Type) : Type :=
  | Ok (a : A)
  | Raise (e : exn).
Arguments Ok {A} a.
Arguments Raise {A} e.

(** A method of an object with state [S]. *)
Definition M (S A : Type) : Type := S -> result A * S.

#[global] Instance M_ret {S} : MRet (M S) := fun A a s => (Ok a, s).
#[global] Instance M_bind {S} : MBind (M S) := fun A B f m s =>
  match m s with
  | (Ok a, s') => f a s'
  | (Raise e, s') => (Raise e, s')
  end.

Definition raise {S A} (e : exn) : M S A := fun s => (Raise e, s).
Definition gets {S A} (f : S -> A) : M S A := fun s => (Ok (f s), s).
Definition modify {S} (f : S -> S) : M S unit := fun s => (Ok tt, f s).

(** ** Floating point *)

Definition float64 : Type := spec_float.
Definition float16 : Type := spec_float.

#[global] Instance spec_float_eq_dec : EqDecision spec_float.
Proof. solve_decision. Defined.

Module F64.
Definition prec : Z := 53.
Definition emax : Z := 1024.

(** [float(z)] for a Python int. *)
Definition of_Z (z : Z) : float64 := binary_normalize prec emax z 0 false.

Definition add (x y : float64) : float64 := SFadd prec emax x y.
Definition sub (x y : float64) : float64 := SFsub prec emax x y.
Definition mul (x y : float64) : float64 := SFmul prec emax x y.

Definition is_zero (x : float64) : bool :=
  match x with S754_zero _ => true | _ => false end.

(** [x / y] on Python floats: a zero divisor raises. *)
Definition div (x y : float64) : result float64 :=
  if is_zero y then Raise ZeroDivisionError else Ok (SFdiv prec emax x y).

Definition is_nan (x : float64) : bool :=
  match x with S754_nan => true | _ => false end.

Definition eqb (x y : float64) : bool := SFeqb x y.
Definition ltb (x y : float64) : bool := SFltb x y.
Definition leb (x y : float64) : bool := SFleb x y.

(** Python's builtin [min(a, b)] and [max(a, b)]: the first argument is
    kept unless the second is strictly better. *)
Definition min (a b : float64) : float64 := if ltb b a then b else a.
Definition max (a b : float64) : float64 := if ltb a b then b else a.

(** [a / b] on Python ints (true division).  For operands below 2^53
    in magnitude, which is all the device code produces, it is the
    quotient of the two ints taken as floats. *)
Definition int_truediv (a b : Z) : result float64 := div (of_Z a) (of_Z b).
End F64.

(** [P] holds of the [n] integers from [lo] on. *)
Fixpoint forall_from (n : nat) (lo : Z) (P : Z -> bool) : bool :=
  match n with
  | O => true
  | S n' => P lo && forall_from n' (lo + 1) P
  end.

Module F16.
Definition prec : Z := 11.
Definition emax : Z := 16.

Definition zero : float16 := S754_zero false.

(** Storing a float into a [np.float16] array: round to nearest even. *)
Definition of_f64 (x : float64) : float16 :=
  match x with
  | S754_finite s m e => binary_round prec emax s m e
  | _ => x
  end.

(** Reading an element back in a binary64 computation (exact). *)
Definition to_f64 (x : float16) : float64 :=
  match x with
  | S754_finite s m e => binary_round F64.prec F64.emax s m e
  | _ => x
  end.

(** [ndarray.astype(bool)]: true for each nonzero element (a NaN is
    nonzero, both zeros are not). *)
Definition astype_bool (x : float16) : bool :=
  match x with S754_zero _ => false | _ => true end.
End F16.

(** ** numpy arrays as lists *)

(** [np.zeros(n, dtype=np.float16)] *)
Definition np_zeros (n : Z) : result (list float16) :=
  if decide (n < 0) then Raise ValueError
  else Ok (replicate (Z.to_nat n) F16.zero).

(** The position an index [k] denotes in an array of [n] elements;
    negative indices count from the end. *)
Definition np_index (n k : Z) : option nat :=
  if decide (0 <= k < n) then Some (Z.to_nat k)
  else if decide (- n <= k < 0) then Some (Z.to_nat (n + k))
  else None.

(** [np.roll(a, shift)] on a one dimensional array. *)
Definition np_roll {A} (a : list A) (shift : Z) : list A :=
  let n := Z.of_nat (length a) in
  if decide (n = 0) then a
  else
    let r := Z.to_nat (n - shift mod n) in
    drop r a ++ take r a.

(** ** class Sensor *)

(** The state of a sensor object: the attributes of the base class and,
    in [dev], those of the subclass together with the device it talks
    to. *)
Record Sensor (D : Type) : Type := mkSensor {
  _data : list float16;
  _i : Z;
  _data_length : Z;
  _last_timestamp : float64;
  dev : D
}.
Arguments mkSensor {D}.
Arguments _data {D}.
Arguments _i {D}.
Arguments _data_length {D}.
Arguments _last_timestamp {D}.
Arguments dev {D}.

Definition set_data {D} (l : list float16) (s : Sensor D) : Sensor D :=
  mkSensor l (_i s) (_data_length s) (_last_timestamp s) (dev s).
Definition set_i {D} (i : Z) (s : Sensor D) : Sensor D :=
  mkSensor (_data s) i (_data_length s) (_last_timestamp s) (dev s).
Definition set_data_length {D} (n : Z) (s : Sensor D) : Sensor D :=
  mkSensor (_data s) (_i s) n (_last_timestamp s) (dev s).
Definition set_last_timestamp {D} (t : float64) (s : Sensor D) : Sensor D :=
  mkSensor (_data s) (_i s) (_data_length s) t (dev s).
Definition set_dev {D} (d : D) (s : Sensor D) : Sensor D :=
  mkSensor (_data s) (_i s) (_data_length s) (_last_timestamp s) d.

(** A method supplied by a subclass.  It may read the whole object but,
    as in every subclass of the file, it writes only attributes of its
    own. *)
Definition Cap (D A : Type) : Type := Sensor D -> result A * D.

Definition lift {D A} (c : Cap D A) : M (Sensor D) A :=
  fun s => let (r, d) := c s in (r, set_dev d s).

(** The abstract methods of [Sensor].  [Raw] is what the device
    communicates in; [_reset_device] is what an overriding [reset] does
    after calling [super().reset()] (nothing in the base class). *)
Class Device (D : Type) : Type := {
  Raw : Type;
  _raw_read : Cap D Raw;
  _convert : Raw -> Cap D float64;
  _verify : float64 -> Cap D bool;
  _reset_device : Cap D unit
}.

Module Sensor.
Section Engine.
Context {D : Type} `{Device D}.

Definition _DEFAULT_STORED_OBSERVATIONS : Z := 128.

(** The sentinel of [_last_timestamp]. *)
Definition never : float64 := F64.of_Z (-1).

Definition __init__ (d : D) : Sensor D :=
  {| _data := replicate (Z.to_nat _DEFAULT_STORED_OBSERVATIONS) F16.zero;
     _i := 0;
     _data_length := _DEFAULT_STORED_OBSERVATIONS;
     _last_timestamp := never;
     dev := d |}.

Definition data_length : M (Sensor D) Z := gets _data_length.

Definition __store_last (value : float64) : M (Sensor D) unit := fun s =>
  match np_index (Z.of_nat (length (_data s))) (_i s) with
  | None => (Raise IndexError, s)
  | Some k =>
      let s1 := set_data (<[k := F16.of_f64 value]> (_data s)) s in
      if decide (_data_length s1 = 0) then (Raise ZeroDivisionError, s1)
      else (Ok tt, set_i ((_i s1 + 1) mod _data_length s1) s1)
  end.

Definition _read : M (Sensor D) float64 :=
  raw ← lift _raw_read; lift (_convert raw).

Definition update (now : float64) : M (Sensor D) bool :=
  value ← _read;
  ok ← lift (_verify value);
  (if ok : bool
   then __store_last value;; modify (set_last_timestamp now)
   else mret tt);;
  lift (_verify value).

Definition get : M (Sensor D) float16 := fun s =>
  if F64.eqb (_last_timestamp s) never then (Raise RuntimeWarning, s)
  else if decide (_data_length s = 0) then (Raise ZeroDivisionError, s)
  else
    match np_index (Z.of_nat (length (_data s)))
                   ((_i s - 1) mod _data_length s) with
    | None => (Raise IndexError, s)
    | Some k =>
        match _data s !! k with
        | Some x => (Ok x, s)
        | None => (Raise IndexError, s)
        end
    end.

Definition age (now : float64) : M (Sensor D) float64 := fun s =>
  if F64.eqb (_last_timestamp s) never then (Ok (F64.of_Z (-1)), s)
  else (Ok (F64.sub now (_last_timestamp s)), s).

(** [Sensor.reset], followed by the subclass's extension. *)
Definition reset : M (Sensor D) unit :=
  n ← data_length;
  (fun s => match np_zeros n with
            | Ok z => (Ok tt, set_i 0 (set_data z s))
            | Raise e => (Raise e, s)
            end);;
  lift _reset_device.

Definition data : M (Sensor D) (list float16) :=
  n ← data_length;
  rolled ← gets (fun s => np_roll (_data s) (n - _i s));
  mret (filter (fun x => F16.astype_bool x = true) rolled).

Definition data_length_setter (new_data_length : Z) : M (Sensor D) unit :=
  modify (set_data_length new_data_length);;
  reset.
End Engine.
End Sensor.

(** ** class AnalogSensor *)

(** Modelled from the spec: the ADC collaborator ([vent.io.devices.ADS1115]
    is not part of these sources).  [read_conversion(configured fields)]
    returns a raw voltage; the voltages the converter will deliver are the
    stream [conversions], of which [conversions_read] have been consumed. *)
Record ADS1115 : Type := mkADS1115 {
  conversions : nat -> float64;
  conversions_read : nat
}.

Definition read_conversion (adc : ADS1115) : float64 * ADS1115 :=
  (conversions adc (conversions_read adc),
   mkADS1115 (conversions adc) (S (conversions_read adc))).

Record AnalogSensor : Type := mkAnalogSensor {
  adc : ADS1115;
  offset_voltage : float64;
  output_span : float64;
  conversion_factor : float64
}.

Module AnalogSensor.
Definition _DEFAULT_offset_voltage : float64 := F64.of_Z 0.
Definition _DEFAULT_output_span : float64 := F64.of_Z 5.
Definition _DEFAULT_conversion_factor : float64 := F64.of_Z 1.

Definition set_offset_voltage (v : float64) (d : AnalogSensor) :=
  mkAnalogSensor (adc d) v (output_span d) (conversion_factor d).
Definition set_output_span (v : float64) (d : AnalogSensor) :=
  mkAnalogSensor (adc d) (offset_voltage d) v (conversion_factor d).

Definition _verify (value : float64) : Cap AnalogSensor bool := fun s =>
  let d := dev s in
  match F64.div value (conversion_factor d) with
  | Raise e => (Raise e, d)
  | Ok q =>
      let report := F64.leb (F64.of_Z 0) q && F64.leb q (F64.of_Z 1) in
      if negb report then
        let d1 := set_offset_voltage (F64.min (offset_voltage d) value) d in
        let d2 := set_output_span
                    (F64.max (output_span d1)
                             (F64.sub value (offset_voltage d1))) d1 in
        (Ok report, d2)
      else (Ok report, d)
  end.

Definition _convert (raw : float64) : Cap AnalogSensor float64 := fun s =>
  let d := dev s in
  (F64.div (F64.mul (conversion_factor d) (F64.sub raw (offset_voltage d)))
           (output_span d),
   d).

Definition _raw_read : Cap AnalogSensor float64 := fun s =>
  let d := dev s in
  let (v, adc') := read_conversion (adc d) in
  (Ok v,
   mkAnalogSensor adc' (offset_voltage d) (output_span d)
                  (conversion_factor d)).

#[global] Instance device : Device AnalogSensor :=
  Build_Device AnalogSensor float64 _raw_read _convert _verify
               (fun s => (Ok tt, dev s)).

(** Construction; a calibration field that is not passed takes its
    value from [_DEFAULT_CALIBRATION]. *)
Definition __init__ (adc : ADS1115)
    (offset_voltage output_span conversion_factor : option float64)
  : Sensor AnalogSensor :=
  Sensor.__init__
    (mkAnalogSensor adc
       (default _DEFAULT_offset_voltage offset_voltage)
       (default _DEFAULT_output_span output_span)
       (default _DEFAULT_conversion_factor conversion_factor)).
(** [calibrate] with keyword arguments: each one that names a
    calibration field is assigned, the others are passed over. *)
Definition _DEFAULT_CALIBRATION_keys : list string :=
  ["offset_voltage"; "output_span"; "conversion_factor"].

Definition setattr (fld : string) (val : float64) (d : AnalogSensor)
  : AnalogSensor :=
  if decide (fld = "offset_voltage") then set_offset_voltage val d
  else if decide (fld = "output_span") then set_output_span val d
  else if decide (fld = "conversion_factor")
  then mkAnalogSensor (adc d) (offset_voltage d) (output_span d) val
  else d.

Definition calibrate_fields (kwargs : list (string * float64))
    (d : AnalogSensor) : AnalogSensor :=
  foldl (fun d kv =>
           if bool_decide (kv.1 ∈ _DEFAULT_CALIBRATION_keys)
           then setattr kv.1 kv.2 d else d)
        d kwargs.

(** [np.min] of a float16 array: a NaN wins, an empty array raises. *)
Definition f16_min (x y : float16) : float16 :=
  if F64.is_nan x then x
  else if F64.is_nan y then y
  else if SFltb y x then y else x.

Definition np_min (a : list float16) : result float16 :=
  match a with
  | [] => Raise ValueError
  | x :: l => Ok (foldl f16_min x l)
  end.

(** One turn of the loop of the automatic routine: an update, then the
    debugging print of the last element of [data] (the sleep is left
    out). *)
Definition calibrate_turn (now : float64) : M (Sensor AnalogSensor) unit :=
  Sensor.update now;;
  d ← Sensor.data;
  match np_index (Z.of_nat (length d)) (Z.of_nat (length d) - 1) with
  | None => raise IndexError
  | Some _ => mret tt
  end.

(** [n] turns, the clock reading [clock k] at the turn numbered [k]. *)
Fixpoint calibrate_loop (n k : nat) (clock : nat -> float64)
  : M (Sensor AnalogSensor) unit :=
  match n with
  | O => mret tt
  | S n' => calibrate_turn (clock k);; calibrate_loop n' (S k) clock
  end.

(** [calibrate]; without keyword arguments, fifty updates and
    then the minimum of the last fifty elements of [data] becomes
    [offset_voltage]. *)
Definition calibrate (kwargs : list (string * float64))
    (clock : nat -> float64) : M (Sensor AnalogSensor) unit :=
  match kwargs with
  | _ :: _ => modify (fun s => set_dev (calibrate_fields kwargs (dev s)) s)
  | [] =>
      calibrate_loop 50 0 clock;;
      d ← Sensor.data;
      m ← (fun s => (np_min (drop (length d - 50) d), s));
      modify (fun s => set_dev (set_offset_voltage (F16.to_f64 m) (dev s)) s)
  end.

(** *** Construction from keyword arguments *)

Section Construction.
(** The values of the fields are passed on as they are.  [of_int] is a
    Python int as such a value.  Of the ADC, which is not part of these
    sources, the constructor uses [USER_CONFIGURABLE_FIELDS] and, for a
    field [f], [getattr(adc.config, f).unpack(adc.cfg)], here [unpack f].
    [existing] tells the names the object has before any field is set
    (what the classes define, [adc], the attributes of [Sensor]); the
    fields that are set are kept in a dictionary beside them. *)
Context {V : Type}.
Variable of_int : Z -> V.
Variable USER_CONFIGURABLE_FIELDS : list string.
Variable unpack : string -> V.
Variable existing : string -> bool.

Inductive TypeError : Type :=
  | MUX_not_specified
  | unknown_fields.

Definition _DEFAULT_CALIBRATION : list (string * V) :=
  [("offset_voltage", of_int 0);
   ("output_span", of_int 5);
   ("conversion_factor", of_int 1)].

Definition hasattr (attrs : gmap string V) (name : string) : bool :=
  existing name || bool_decide (is_Some (attrs !! name)).

Definition _fill_attr (attrs : gmap string V) : gmap string V :=
  let attrs :=
    foldl (fun a cfld =>
             if hasattr a cfld then a else <[cfld := unpack cfld]> a)
          attrs USER_CONFIGURABLE_FIELDS in
  foldl (fun a dv => if hasattr a dv.1 then a else <[dv.1 := dv.2]> a)
        attrs _DEFAULT_CALIBRATION.

Definition allowed : list string :=
  USER_CONFIGURABLE_FIELDS ++ _DEFAULT_CALIBRATION.*1.

Definition _check_and_set_attr (kwargs : list (string * V))
    (attrs : gmap string V) : TypeError + gmap string V :=
  let '(attrs, result) :=
    foldl (fun ar kv =>
             if bool_decide (kv.1 ∈ allowed)
             then (<[kv.1 := kv.2]> ar.1, S ar.2) else ar)
          (attrs, O) kwargs in
  if decide (result <> length kwargs) then inl unknown_fields
  else inr (_fill_attr attrs).

(** [__init__(adc, **kwargs)], to the dictionary of the fields. *)
Definition __init__kwargs (kwargs : list (string * V))
  : TypeError + gmap string V :=
  if bool_decide ("MUX" ∈ kwargs.*1) then
    _check_and_set_attr (filter (fun kv => kv.1 <> "pig") kwargs) ∅
  else inl MUX_not_specified.
End Construction.
End AnalogSensor.

(** ** class SFM3200 *)

(** Modelled from the spec: the bus collaborator ([vent.io.devices.I2CDevice]
    is not part of these sources), with [write_device(command)] and
    [read_device(byte_count)], either of which can fail; the failure is
    the exception [TransportError], as the spec names it, and is not
    caught anywhere in the sensors.  What the bus will answer to the
    reads is the stream [frames], where [None] is a read that fails, and
    [frames_read] counts the reads attempted.  The stream [refused] tells
    which of the writes fail, [writes_tried] counts the writes attempted,
    and the commands that went through are logged in [written]. *)
Record I2CDevice : Type := mkI2CDevice {
  frames : nat -> option (list Z);
  frames_read : nat;
  written : list Z;
  refused : nat -> bool;
  writes_tried : nat
}.

Definition write_device (command : Z) (b : I2CDevice)
  : result unit * I2CDevice :=
  if refused b (writes_tried b)
  then (Raise TransportError,
        mkI2CDevice (frames b) (frames_read b) (written b)
          (refused b) (S (writes_tried b)))
  else (Ok tt,
        mkI2CDevice (frames b) (frames_read b) (written b ++ [command])
          (refused b) (S (writes_tried b))).

Definition read_device (count : nat) (b : I2CDevice)
  : result (list Z) * I2CDevice :=
  (match frames b (frames_read b) with
   | Some frame => Ok (take count frame)
   | None => Raise TransportError
   end,
   mkI2CDevice (frames b) (S (frames_read b)) (written b)
     (refused b) (writes_tried b)).

(** Modelled from the spec: [be16_to_native] (not part of these sources)
    interprets the first two bytes as a signed big-endian 16-bit
    two's-complement integer and discards the remaining bytes. *)
Definition be16_to_native (frame : list Z) : Z :=
  let u := fold_left (fun acc b => acc * 256 + b) (take 2 frame) 0 in
  if decide (u < 32768) then u else u - 65536.

Module SFM3200.
Definition _DEFAULT_ADDRESS : Z := 64.
Definition _FLOW_OFFSET : Z := 32768.
Definition _FLOW_SCALE_FACTOR : Z := 120.

Definition _verify (value : float64) : Cap I2CDevice bool :=
  fun s => (Ok true, dev s).

Definition _convert (raw : Z) : Cap I2CDevice float64 :=
  fun s => (F64.int_truediv (raw - _FLOW_OFFSET) _FLOW_SCALE_FACTOR, dev s).

Definition _raw_read : Cap I2CDevice Z := fun s =>
  match read_device 4 (dev s) with
  | (Ok frame, b) => (Ok (be16_to_native frame), b)
  | (Raise e, b) => (Raise e, b)
  end.

(** The part of [reset] after [super().reset()]: the soft reset
    command. *)
Definition _reset_device : Cap I2CDevice unit :=
  fun s => write_device 8192 (dev s).

#[global] Instance device : Device I2CDevice :=
  Build_Device I2CDevice Z _raw_read _convert _verify _reset_device.

Definition _start : M (Sensor I2CDevice) unit :=
  lift (fun s => write_device 4096 (dev s)).

Definition __init__ (bus : I2CDevice) : result unit * Sensor I2CDevice :=
  (Sensor.reset;; _start) (Sensor.__init__ bus).
End SFM3200.

(** ** class SimSensor *)

(** The state of a simulated sensor.  [random()] is a read of the stream
    [rng], of which [rng_drawn] values have been consumed. *)
Record SimSensor : Type := mkSimSensor {
  low : float64;
  high : float64;
  rng : nat -> float64;
  rng_drawn : nat
}.

Definition random (d : SimSensor) : float64 * SimSensor :=
  (rng d (rng_drawn d), mkSimSensor (low d) (high d) (rng d) (S (rng_drawn d))).

Module SimSensor.
(** The literal [.999]. *)
Definition threshold : float64 :=
  SFdiv F64.prec F64.emax (F64.of_Z 999) (F64.of_Z 1000).

Definition _verify (value : float64) : Cap SimSensor bool := fun s =>
  let (r, d) := random (dev s) in
  if F64.ltb threshold r then (Ok false, d) else (Ok true, d).

Definition _convert (raw : float64) : Cap SimSensor float64 :=
  fun s => (Ok raw, dev s).

Definition _raw_read : Cap SimSensor float64 := fun s =>
  if decide (_i s = 0) then
    let (r, d) := random (dev s) in
    (Ok (F64.add (low d) (F64.mul r (high d))), d)
  else
    match Sensor.get s with
    | (Raise e, _) => (Raise e, dev s)
    | (Ok last, _) =>
        let (r, d) := random (dev s) in
        match F64.div (high d) (F64.of_Z 100) with
        | Raise e => (Raise e, d)
        | Ok step => (Ok (F64.add (F16.to_f64 last) (F64.mul r step)), d)
        end
    end.

#[global] Instance device : Device SimSensor :=
  Build_Device SimSensor float64 _raw_read _convert _verify
               (fun s => (Ok tt, dev s)).

Definition __init__ (low high : float64) (rng : nat -> float64)
  : Sensor SimSensor :=
  Sensor.__init__ (mkSimSensor low high rng 0).
End SimSensor.

(** ** class Alarm *)

Module Alarm.
Section Alarm.
(** The enumerations [AlarmType] and [AlarmSeverity] are imported from
    [vent.alarm], which is not part of these sources; of their members
    only [AlarmSeverity.OFF] is used. *)
Context {AlarmType AlarmSeverity : Type}.
Context `{EqDecision AlarmSeverity}.
Variable OFF : AlarmSeverity.

Record Alarm : Type := mkAlarm {
  id : Z;
  _severity : AlarmSeverity;
  _alarm_type : AlarmType;
  start_time : float64;
  active : bool;
  end_time : option float64;
  value : option float64;
  message : option (list Byte.byte);
  latch : bool;
  persistent : bool
}.

Definition severity (a : Alarm) : AlarmSeverity := _severity a.
Definition alarm_type (a : Alarm) : AlarmType := _alarm_type a.

(** [id_counter = count()]: the state of the counter is the value the
    next call of [next] returns; it is shared by every alarm of the
    process. *)
Definition id_counter : Z := 0.

Definition next : M Z Z := fun n => (Ok n, n + 1).

Definition __init__ (alarm_type : AlarmType) (severity : AlarmSeverity)
    (start_time : option float64) (latch persistent : bool)
    (value : option float64) (message : option (list Byte.byte))
    (now : float64) : M Z Alarm :=
  id ← next;
  let start_time := match start_time with None => now | Some t => t end in
  let active := true in
  let active := if decide (severity = OFF) then false else active in
  mret (mkAlarm id severity alarm_type start_time active None value message
                latch persistent).

Definition deactivate (now : float64) : M Alarm unit := fun a =>
  if negb (active a) then (Ok tt, a)
  else
    (Ok tt,
     mkAlarm (id a) (_severity a) (_alarm_type a) (start_time a)
             false (Some now) (value a) (message a) (latch a)
             (persistent a)).

(** The arguments of one construction, with the clock reading at that
    moment. *)
Record args : Type := mkArgs {
  arg_alarm_type : AlarmType;
  arg_severity : AlarmSeverity;
  arg_start_time : option float64;
  arg_latch : bool;
  arg_persistent : bool;
  arg_value : option float64;
  arg_message : option (list Byte.byte);
  arg_now : float64
}.

Definition construct (x : args) : M Z Alarm :=
  __init__ (arg_alarm_type x) (arg_severity x) (arg_start_time x)
           (arg_latch x) (arg_persistent x) (arg_value x) (arg_message x)
           (arg_now x).

(** Alarms constructed one after the other, in allocation order. *)
Fixpoint constructs (xs : list args) : M Z (list Alarm) :=
  match xs with
  | [] => mret []
  | x :: xs' => a ← construct x; l ← constructs xs'; mret (a :: l)
  end.

(** The relation between the two lifecycle fields: an end time is only
    ever present on an inactive alarm, and an alarm that started active
    has one as soon as it is inactive. *)
Definition lifecycle_ok (started_active : bool) (a : Alarm) : Prop :=
  (is_Some (end_time a) -> active a = false) /\
  (started_active = true -> active a = false -> is_Some (end_time a)).

(** [deactivate()] called at each of the clock readings [ts] in turn. *)
Fixpoint deactivations (ts : list float64) (a : Alarm) : Alarm :=
  match ts with
  | [] => a
  | t :: ts' => deactivations ts' (snd (deactivate t a))
  end.
End Alarm.
End Alarm.

(** ** Counting the verifications *)

(** A device with a counter of the calls of [_verify] beside it; the
    methods are those of the device. *)
Module Counted.
Section Counted.
Context {D : Type} `{Device D}.

Definition forget (s : Sensor (D * nat)) : Sensor D :=
  mkSensor (_data s) (_i s) (_data_length s) (_last_timestamp s)
           (fst (dev s)).

Definition keep {A} (c : Cap D A) : Cap (D * nat) A :=
  fun s => let (r, d) := c (forget s) in (r, (d, snd (dev s))).

Definition tick {A} (c : Cap D A) : Cap (D * nat) A :=
  fun s => let (r, d) := c (forget s) in (r, (d, S (snd (dev s)))).

#[global] Instance device : Device (D * nat) :=
  Build_Device (D * nat) Raw
    (keep _raw_read)
    (fun raw => keep (_convert raw))
    (fun value => tick (_verify value))
    (keep _reset_device).

Definition verify_calls (s : Sensor (D * nat)) : nat := snd (dev s).

(** A method that, when it returns, has called [_verify] [n] times. *)
Definition verifies {A} (n : nat) (m : M (Sensor (D * nat)) A) : Prop :=
  forall s a s', m s = (Ok a, s') -> verify_calls s' = (n + verify_calls s)%nat.

Definition watch (s : Sensor D) : Sensor (D * nat) :=
  mkSensor (_data s) (_i s) (_data_length s) (_last_timestamp s)
           (dev s, O).
End Counted.
End Counted.

(** ** Histories of a sensor *)

Module History.
Section History.
Context {D : Type} `{Device D}.

(** The first half of [update]: the reading and the verdict of the
    verification that decides whether it is stored. *)
Definition gate : M (Sensor D) (float64 * bool) :=
  value ← Sensor._read;
  ok ← lift (_verify value);
  mret (value, ok).

(** The reading an [update] started in [s] stores, if it stores one. *)
Definition accepted (s : Sensor D) : option float64 :=
  match fst (gate s) with
  | Ok (value, true) => Some value
  | _ => None
  end.

(** What a caller can do to a sensor. *)
Inductive call : Type :=
  | DoUpdate (now : float64)
  | DoReset
  | DoSetDataLength (n : Z).

Definition step (c : call) (s : Sensor D) : Sensor D :=
  match c with
  | DoUpdate now => snd (Sensor.update now s)
  | DoReset => snd (Sensor.reset s)
  | DoSetDataLength n => snd (Sensor.data_length_setter n s)
  end.

Fixpoint run (cs : list call) (s : Sensor D) : Sensor D :=
  match cs with
  | [] => s
  | c :: cs' => run cs' (step c s)
  end.

(** The clock never reads the sentinel -1, and a capacity is at least
    one. *)
Definition valid_call (c : call) : Prop :=
  match c with
  | DoUpdate now => F64.eqb now Sensor.never = false
  | DoReset => True
  | DoSetDataLength n => 1 <= n
  end.

(** The clock reading of the last update of the history that stored
    its reading, starting from [acc]. *)
Fixpoint last_stamp (cs : list call) (s : Sensor D) (acc : option float64)
  : option float64 :=
  match cs with
  | [] => acc
  | c :: cs' =>
      last_stamp cs' (step c s)
        match c with
        | DoUpdate now =>
            match accepted s with Some _ => Some now | None => acc end
        | _ => acc
        end
  end.



(** The buffer is as long as the capacity says, and the cursor is
    within it. *)
Definition wf (s : Sensor D) : Prop :=
  1 <= _data_length s /\
  Z.of_nat (length (_data s)) = _data_length s /\
  0 <= _i s < _data_length s.

(** Two states that differ at most in the subclass's attributes. *)
Definition same_engine (s s' : Sensor D) : Prop := s' = set_dev (dev s') s.

(** What the timestamp holds when [acc] is the clock reading of the
    last update that stored. *)
Definition stamped (acc : option float64) (s : Sensor D) : Prop :=
  match acc with
  | None => _last_timestamp s = Sensor.never
  | Some t => _last_timestamp s = t /\ F64.eqb t Sensor.never = false
  end.



(** Pushing readings one after the other, as the accepting branch of
    [update] does. *)
Fixpoint pushes (vs : list float64) (s : Sensor D) : Sensor D :=
  match vs with
  | [] => s
  | v :: vs' => pushes vs' (snd (Sensor.__store_last v s))
  end.

(** The last [c] of the values [ws], oldest first, after the zeros of
    the slots not written yet. *)
Definition window (c : nat) (ws : list float16) : list float16 :=
  replicate (c - length ws) F16.zero ++ drop (length ws - c) ws.

(** A sensor of capacity [c] with nothing stored: what [reset] leaves
    behind. *)
Definition cleared (c : Z) (t : float64) (d : D) : Sensor D :=
  mkSensor (replicate (Z.to_nat c) F16.zero) 0 c t d.
End History.
End History.

(** ** Example objects *)

Module Examples.
(** An enumeration with a member [OFF], standing for [AlarmSeverity]. *)
Inductive Severity : Type := HIGH | MEDIUM | LOW | OFF.

#[global] Instance Severity_eq_dec : EqDecision Severity.
Proof. solve_decision. Defined.

(** An enumeration standing for [AlarmType]. *)
Inductive Kind : Type := LOW_PRESSURE | HIGH_PRESSURE.

Definition second (n : Z) : float64 := F64.of_Z n.

Definition alarm_args (sev : Severity) (n : Z) : @Alarm.args Kind Severity :=
  Alarm.mkArgs LOW_PRESSURE sev None true true None None (second n).

(** An ADC that reads [v] volts on every conversion. *)
Definition steady_adc (v : float64) : ADS1115 := mkADS1115 (fun _ => v) 0.

(** A voltmeter with the default calibration on such an ADC. *)
Definition voltmeter (v : float64) : Sensor AnalogSensor :=
  AnalogSensor.__init__ (steady_adc v) None None None.

(** The voltmeter on an ADC at -5 V, after its first update has moved
    [offset_voltage] to -1.0, with [k] conversions made. *)
Definition stuck_voltmeter (k : nat) : Sensor AnalogSensor :=
  set_dev
    (mkAnalogSensor (mkADS1115 (fun _ => F64.of_Z (-5)) k)
       (F64.of_Z (-1)) (F64.of_Z 5) (F64.of_Z 1))
    (voltmeter (F64.of_Z (-5))).

(** The float literal that denotes [a / b]. *)
Definition ratio (a b : Z) : float64 :=
  SFdiv F64.prec F64.emax (F64.of_Z a) (F64.of_Z b).

Definition half : float64 := ratio 1 2.

(** The same values as elements of the buffer. *)
Definition f16 (a b : Z) : float16 := F16.of_f64 (ratio a b).

(** A pseudo random generator that draws 1/2 except for the draw
    numbered [k], which is 9995/10000. *)
Definition rng_high_at (k : nat) (n : nat) : float64 :=
  if decide (n = k) then ratio 9995 10000 else half.

Definition sim (k : nat) : Sensor SimSensor :=
  SimSensor.__init__ (F64.of_Z 0) (F64.of_Z 100) (rng_high_at k).

(** A bus that answers every read with the same frame and accepts
    every write. *)
Definition flow_bus (frame : list Z) : I2CDevice :=
  mkI2CDevice (fun _ => Some frame) 0 [] (fun _ => false) 0.

(** The same bus with the read numbered [k] failing. *)
Definition flow_bus_failing_at (k : nat) (frame : list Z) : I2CDevice :=
  mkI2CDevice (fun n => if decide (n = k) then None else Some frame) 0 []
    (fun _ => false) 0.
End Examples.

(** ** Counting the calls of a history *)

Module Trace.
Definition is_update (c : History.call) : bool :=
  match c with History.DoUpdate _ => true | _ => false end.

Definition is_resize (c : History.call) : bool :=
  match c with History.DoSetDataLength _ => true | _ => false end.

(** The number of calls of [update]. *)
Definition updates (cs : list History.call) : nat :=
  length (filter (fun c => is_update c = true) cs).

(** The number of calls that clear the buffer: [reset] and the setter of
    [data_length]. *)
Definition clears (cs : list History.call) : nat :=
  length (filter (fun c => is_update c = false) cs).

(** No call sets [data_length]. *)
Definition no_resize (cs : list History.call) : Prop :=
  Forall (fun c => is_resize c = false) cs.

(** How many of the [n] writes numbered from [from] on the bus accepts. *)
Fixpoint sent (refused : nat -> bool) (from n : nat) : nat :=
  match n with
  | O => O
  | S n' => ((if refused from then 0 else 1) + sent refused (S from) n')%nat
  end.

(** The last value can be read whenever the cursor is not at the start:
    the buffer is well formed and a moved cursor comes with a timestamp. *)
Definition readable {D} (s : Sensor D) : Prop :=
  History.wf s /\
  (_i s <> 0 -> F64.eqb (_last_timestamp s) Sensor.never = false).
End Trace.

(** * Properties *)

(** ** Order on floats *)

Section FloatOrder.
Implicit Types x y : float64.

Lemma SFcompare_antisym x y :
  SFcompare y x = option_map CompOpp (SFcompare x y).
Proof.
  destruct x as [sx|sx| |sx mx ex], y as [sy|sy| |sy my ey]; cbn;
    try reflexivity;
    try (destruct sx; reflexivity); try (destruct sy; reflexivity);
    try (destruct sx, sy; reflexivity).
  destruct sx, sy; cbn; try reflexivity.
  - rewrite (Z.compare_antisym ex ey).
    destruct (ex ?= ey); cbn; try reflexivity.
    do 2 f_equal. symmetry. exact (Pos.compare_cont_antisym mx my Eq).
  - rewrite (Z.compare_antisym ex ey).
    destruct (ex ?= ey); cbn; try reflexivity.
    f_equal. symmetry. exact (Pos.compare_cont_antisym mx my Eq).
Qed.

Lemma SFcompare_refl x : F64.is_nan x = false -> SFcompare x x = Some Eq.
Proof.
  destruct x as [s|s| |s m e]; cbn; intros Hx; try discriminate;
    try reflexivity; try (destruct s; reflexivity).
  destruct s; rewrite Z.compare_refl; fold (Pos.compare m m);
    now rewrite Pos.compare_refl.
Qed.

Lemma SFcompare_total x y :
  F64.is_nan x = false -> F64.is_nan y = false ->
  exists c, SFcompare x y = Some c.
Proof.
  destruct x, y; cbn; intros; try discriminate; eauto.
Qed.

Lemma leb_refl x : F64.is_nan x = false -> F64.leb x x = true.
Proof. intros Hx. unfold F64.leb, SFleb. now rewrite SFcompare_refl. Qed.

Lemma ltb_leb x y : F64.ltb x y = true -> F64.leb x y = true.
Proof.
  unfold F64.ltb, F64.leb, SFltb, SFleb.
  now destruct (SFcompare x y) as [[]|].
Qed.

Lemma not_ltb_leb x y :
  F64.is_nan x = false -> F64.is_nan y = false ->
  F64.ltb y x = false -> F64.leb x y = true.
Proof.
  intros Hx Hy. unfold F64.ltb, F64.leb, SFltb, SFleb.
  rewrite (SFcompare_antisym x y).
  destruct (SFcompare_total x y Hx Hy) as [c ->]. now destruct c.
Qed.

Lemma min_is_nan x y :
  F64.is_nan x = false -> F64.is_nan y = false ->
  F64.is_nan (F64.min x y) = false.
Proof. intros Hx Hy. unfold F64.min. now destruct (F64.ltb y x). Qed.

Lemma min_leb x y :
  F64.is_nan x = false -> F64.is_nan y = false ->
  F64.leb (F64.min x y) x = true /\ F64.leb (F64.min x y) y = true.
Proof.
  intros Hx Hy. unfold F64.min. destruct (F64.ltb y x) eqn:Hlt.
  - split; [now apply ltb_leb | now apply leb_refl].
  - split; [now apply leb_refl | now apply not_ltb_leb].
Qed.
End FloatOrder.

(** ** Alarm lifecycle *)

Section AlarmFacts.
Context {AlarmType AlarmSeverity : Type} `{EqDecision AlarmSeverity}.
Variable OFF : AlarmSeverity.

Local Abbreviation Alarm := (@Alarm.Alarm AlarmType AlarmSeverity).
Local Abbreviation args := (@Alarm.args AlarmType AlarmSeverity).

Implicit Types (a : Alarm) (t : float64) (ts : list float64) (x : args).

Lemma deactivate_inactive a t :
  Alarm.active a = false -> Alarm.deactivate t a = (Ok tt, a).
Proof. intros Ha. unfold Alarm.deactivate. now rewrite Ha. Qed.

Lemma deactivate_active a t :
  Alarm.active a = true ->
  Alarm.active (snd (Alarm.deactivate t a)) = false /\
  Alarm.end_time (snd (Alarm.deactivate t a)) = Some t.
Proof. intros Ha. unfold Alarm.deactivate. now rewrite Ha. Qed.

Lemma deactivate_id a t :
  Alarm.id (snd (Alarm.deactivate t a)) = Alarm.id a.
Proof. unfold Alarm.deactivate. now destruct (Alarm.active a). Qed.

Lemma deactivate_severity a t :
  Alarm.severity (snd (Alarm.deactivate t a)) = Alarm.severity a.
Proof. unfold Alarm.deactivate. now destruct (Alarm.active a). Qed.

Lemma deactivations_inactive ts a :
  Alarm.active a = false -> Alarm.deactivations ts a = a.
Proof.
  induction ts as [|t ts IH]; intros Ha; [reflexivity|].
  cbn [Alarm.deactivations]. rewrite (deactivate_inactive a t Ha). now apply IH.
Qed.

Lemma deactivations_id ts a :
  Alarm.id (Alarm.deactivations ts a) = Alarm.id a.
Proof.
  revert a. induction ts as [|t ts IH]; intros a; [reflexivity|].
  cbn [Alarm.deactivations]. now rewrite IH, deactivate_id.
Qed.

Lemma construct_fields x n :
  exists a, Alarm.construct OFF x n = (Ok a, n + 1) /\
    Alarm.id a = n /\
    Alarm.severity a = Alarm.arg_severity x /\
    Alarm.active a
    = (if decide (Alarm.arg_severity x = OFF) then false else true) /\
    Alarm.end_time a = None.
Proof. eexists. split; [reflexivity|]. cbn. repeat split. Qed.

Lemma deactivate_lifecycle b a t :
  Alarm.lifecycle_ok b a -> Alarm.lifecycle_ok b (snd (Alarm.deactivate t a)).
Proof.
  intros Hok.
  pose proof (deactivate_inactive a t) as Hoff.
  pose proof (deactivate_active a t) as Hon.
  destruct (Alarm.active a).
  - destruct (Hon eq_refl) as [E1 E2].
    split; [intros _; exact E1|]. intros _ _. rewrite E2. now eexists.
  - now rewrite (Hoff eq_refl).
Qed.

Lemma deactivations_lifecycle b ts a :
  Alarm.lifecycle_ok b a -> Alarm.lifecycle_ok b (Alarm.deactivations ts a).
Proof.
  revert a. induction ts as [|t ts IH]; intros a Ha; [assumption|].
  cbn [Alarm.deactivations]. now apply IH, deactivate_lifecycle.
Qed.

(** C5: deactivate() leaves an inactive alarm as it is; on an active
    alarm it sets end_time to the clock reading and clears active; a
    second call changes nothing, and whatever number of calls follow,
    end_time stays the one set by the first. *)
Theorem deactivate_exactly_once a t1 t2 ts :
  Alarm.deactivate t1 a =
    (Ok tt,
     if Alarm.active a
     then Alarm.mkAlarm (Alarm.id a) (Alarm._severity a)
            (Alarm._alarm_type a) (Alarm.start_time a) false (Some t1)
            (Alarm.value a) (Alarm.message a) (Alarm.latch a)
            (Alarm.persistent a)
     else a) /\
  Alarm.deactivate t2 (snd (Alarm.deactivate t1 a)) =
    (Ok tt, snd (Alarm.deactivate t1 a)) /\
  Alarm.end_time (Alarm.deactivations (t1 :: t2 :: ts) a) =
    (if Alarm.active a then Some t1 else Alarm.end_time a) /\
  Alarm.active (Alarm.deactivations (t1 :: t2 :: ts) a) = false.
Proof.
  assert (Hoff : Alarm.active (snd (Alarm.deactivate t1 a)) = false).
  { unfold Alarm.deactivate. now destruct (Alarm.active a) eqn:Ha. }
  split; [unfold Alarm.deactivate; now destruct (Alarm.active a)|].
  split; [now apply deactivate_inactive|].
  change (Alarm.deactivations (t1 :: t2 :: ts) a)
    with (Alarm.deactivations (t2 :: ts) (snd (Alarm.deactivate t1 a))).
  rewrite (deactivations_inactive _ _ Hoff).
  split; [|assumption].
  unfold Alarm.deactivate. now destruct (Alarm.active a).
Qed.

Lemma constructs_ids xs n :
  exists l, Alarm.constructs OFF xs n = (Ok l, n + Z.of_nat (length xs)) /\
    (forall (i : nat) a, l !! i = Some a -> Alarm.id a = n + Z.of_nat i) /\
    length l = length xs.
Proof.
  revert n. induction xs as [|x xs IH]; intros n.
  - exists []. split; [cbn; f_equal; lia|]. split; [|reflexivity].
    intros i a Hl. discriminate.
  - destruct (construct_fields x n) as (a0 & Hc & Hid & _).
    destruct (IH (n + 1)) as (l & Hl & Hids & Hlen).
    exists (a0 :: l). split; [|split].
    + cbn [Alarm.constructs]. unfold mbind, M_bind. rewrite Hc, Hl.
      cbn. f_equal. lia.
    + intros [|i] a Hi; cbn in Hi.
      * injection Hi as <-. lia.
      * rewrite (Hids i a Hi). lia.
    + cbn [length]. now rewrite Hlen.
Qed.

(** C6 (amended): an alarm constructed with severity OFF starts
    inactive and any other severity starts active, in both cases with
    no end_time; after any sequence of deactivate() calls, end_time is
    present only if the alarm is inactive, and for an alarm constructed
    with a severity other than OFF it is present if and only if the
    alarm is inactive; an alarm constructed with OFF stays as
    constructed, inactive and without end_time. *)
Theorem lifecycle_invariant x n ts :
  exists a0, Alarm.construct OFF x n = (Ok a0, n + 1) /\
    Alarm.active a0 =
      (if decide (Alarm.arg_severity x = OFF) then false else true) /\
    Alarm.end_time a0 = None /\
    (is_Some (Alarm.end_time (Alarm.deactivations ts a0)) ->
     Alarm.active (Alarm.deactivations ts a0) = false) /\
    (Alarm.arg_severity x <> OFF ->
     (is_Some (Alarm.end_time (Alarm.deactivations ts a0)) <->
      Alarm.active (Alarm.deactivations ts a0) = false)) /\
    (Alarm.arg_severity x = OFF -> Alarm.deactivations ts a0 = a0).
Proof.
  destruct (construct_fields x n) as (a0 & Hc & _ & _ & Hact & Hend).
  exists a0. split; [exact Hc|]. split; [exact Hact|]. split; [exact Hend|].
  assert (Hok : Alarm.lifecycle_ok (Alarm.active a0) a0).
  { split; [rewrite Hend; intros [? ?]; discriminate|].
    intros -> ?; discriminate. }
  apply (deactivations_lifecycle _ ts) in Hok. destruct Hok as [H1 H2].
  split; [exact H1|]. split.
  - intros Hne. split; [exact H1|]. apply H2.
    rewrite Hact. now destruct (decide (Alarm.arg_severity x = OFF)).
  - intros Heq. apply deactivations_inactive.
    rewrite Hact. now destruct (decide (Alarm.arg_severity x = OFF)).
Qed.

(** C7: the alarms constructed one after the other in a process get
    the successive values of the counter, one alarm for each
    construction, so their ids are strictly increasing in allocation
    order and pairwise distinct; the id is assigned by the constructor
    and deactivate() never changes it. *)
Theorem ids_distinct_increasing xs n :
  exists l, Alarm.constructs OFF xs n = (Ok l, n + Z.of_nat (length xs)) /\
    (forall (i : nat) a, l !! i = Some a -> Alarm.id a = n + Z.of_nat i) /\
    (forall (i j : nat) a b, (i < j)%nat ->
       l !! i = Some a -> l !! j = Some b -> Alarm.id a < Alarm.id b) /\
    (forall (i j : nat) a b, i <> j ->
       l !! i = Some a -> l !! j = Some b -> Alarm.id a <> Alarm.id b) /\
    (forall a ts, Alarm.id (Alarm.deactivations ts a) = Alarm.id a) /\
    length l = length xs.
Proof.
  destruct (constructs_ids xs n) as (l & Hl & Hids & Hlen).
  exists l. split; [exact Hl|]. split; [exact Hids|].
  split; [|split; [|split]].
  - intros i j a b Hij Ha Hb. rewrite (Hids i a Ha), (Hids j b Hb). lia.
  - intros i j a b Hij Ha Hb. rewrite (Hids i a Ha), (Hids j b Hb). lia.
  - intros a ts. apply deactivations_id.
  - exact Hlen.
Qed.
End AlarmFacts.

(** C6 (as stated) fails: an alarm constructed with severity OFF is
    inactive and has no end_time. *)
Lemma off_alarm_has_no_end_time :
  exists a,
    fst (Alarm.construct Examples.OFF
           (Examples.alarm_args Examples.OFF 10) Alarm.id_counter) = Ok a /\
    ~ (is_Some (Alarm.end_time a) <-> Alarm.active a = false).
Proof.
  eexists. split; [reflexivity|]. cbn. intros [_ H].
  destruct (H eq_refl) as [? ?]. discriminate.
Qed.

Lemma lifecycle_invariant_witness :
  exists a0,
    Alarm.construct Examples.OFF (Examples.alarm_args Examples.HIGH 10) 0
      = (Ok a0, 0 + 1) /\
    Alarm.active a0 = true /\
    (is_Some (Alarm.end_time
       (Alarm.deactivations [Examples.second 20; Examples.second 30] a0)) <->
     Alarm.active
       (Alarm.deactivations [Examples.second 20; Examples.second 30] a0)
       = false).
Proof.
  destruct (lifecycle_invariant Examples.OFF
              (Examples.alarm_args Examples.HIGH 10) 0
              [Examples.second 20; Examples.second 30])
    as (a0 & Hc & Hact & _ & _ & Hiff & _).
  exists a0. split; [exact Hc|]. split; [exact Hact|].
  apply Hiff. cbn. discriminate.
Defined.

(** ** The sensor engine *)

Section EngineFacts.
Context {D : Type} `{Device D}.

Implicit Types (s : Sensor D) (now t v : float64) (d : D).

Import History.

Lemma same_engine_refl s : same_engine s s.
Proof. unfold same_engine. now destruct s. Qed.

Lemma same_engine_trans s1 s2 s3 :
  same_engine s1 s2 -> same_engine s2 s3 -> same_engine s1 s3.
Proof. unfold same_engine. intros -> ->. reflexivity. Qed.

Lemma same_engine_fields s s' :
  same_engine s s' ->
  _data s' = _data s /\ _i s' = _i s /\ _data_length s' = _data_length s /\
  _last_timestamp s' = _last_timestamp s.
Proof. unfold same_engine. intros ->. repeat split. Qed.

Lemma lift_same_engine {A} (c : Cap D A) s : same_engine s (snd (lift c s)).
Proof. unfold lift, same_engine. now destruct (c s). Qed.

Lemma read_same_engine s : same_engine s (snd (Sensor._read s)).
Proof.
  unfold Sensor._read. unfold mbind, M_bind.
  pose proof (lift_same_engine _raw_read s) as H1.
  destruct (lift _raw_read s) as [[raw|e] s1]; cbn [snd] in *; [|exact H1].
  eapply same_engine_trans; [exact H1|]. apply lift_same_engine.
Qed.

Lemma gate_same_engine s : same_engine s (snd (gate s)).
Proof.
  unfold gate. unfold mbind, M_bind.
  pose proof (read_same_engine s) as H1.
  destruct (Sensor._read s) as [[v|e] s1]; cbn [snd] in *; [|exact H1].
  pose proof (lift_same_engine (_verify v) s1) as H2.
  destruct (lift (_verify v) s1) as [[ok|e] s2]; cbn [snd] in *;
    eapply same_engine_trans; eauto.
Qed.

(** [update], by the verdict of its first verification. *)
Lemma update_unfold now s :
  Sensor.update now s =
    match gate s with
    | (Raise e, s2) => (Raise e, s2)
    | (Ok (value, false), s2) => lift (_verify value) s2
    | (Ok (value, true), s2) =>
        match Sensor.__store_last value s2 with
        | (Raise e, s3) => (Raise e, s3)
        | (Ok _, s3) => lift (_verify value) (set_last_timestamp now s3)
        end
    end.
Proof.
  unfold Sensor.update, gate. unfold mbind, M_bind.
  destruct (Sensor._read s) as [[v|e] s1]; [|reflexivity].
  destruct (lift (_verify v) s1) as [[[|]|e] s2]; cbn; try reflexivity.
  destruct (Sensor.__store_last v s2) as [[[]|e] s3]; reflexivity.
Qed.

Lemma store_last_wf v s :
  wf s ->
  Sensor.__store_last v s =
    (Ok tt,
     set_i ((_i s + 1) mod _data_length s)
       (set_data (<[Z.to_nat (_i s) := F16.of_f64 v]> (_data s)) s)) /\
  wf (snd (Sensor.__store_last v s)).
Proof.
  intros (HC & Hlen & Hi). unfold Sensor.__store_last, np_index.
  rewrite Hlen. destruct (decide (0 <= _i s < _data_length s)); [|lia].
  cbn [set_data _data_length]. destruct (decide (_data_length s = 0)); [lia|].
  split; [reflexivity|]. cbn. unfold wf. cbn.
  rewrite length_insert. split; [lia|]. split; [lia|].
  apply Z.mod_pos_bound. lia.
Qed.

Lemma update_rejected now s :
  accepted s = None -> same_engine s (snd (Sensor.update now s)).
Proof.
  intros Hacc. rewrite update_unfold. unfold accepted in Hacc.
  pose proof (gate_same_engine s) as Hg.
  destruct (gate s) as [[[v [|]]|e] s2]; cbn [fst snd] in *;
    [discriminate| |exact Hg].
  eapply same_engine_trans; [exact Hg|]. apply lift_same_engine.
Qed.

Lemma update_accepted now s v :
  wf s -> accepted s = Some v ->
  let s' := snd (Sensor.update now s) in
  _data s' = <[Z.to_nat (_i s) := F16.of_f64 v]> (_data s) /\
  _i s' = (_i s + 1) mod _data_length s /\
  _data_length s' = _data_length s /\
  _last_timestamp s' = now.
Proof.
  intros Hwf Hacc. rewrite update_unfold. unfold accepted in Hacc.
  pose proof (gate_same_engine s) as Hg.
  destruct (gate s) as [[[v' [|]]|e] s2]; cbn [fst snd] in *; try discriminate.
  injection Hacc as ->.
  destruct (same_engine_fields _ _ Hg) as (Hd & Hi & Hl & Ht).
  assert (Hwf2 : wf s2). { unfold wf. rewrite Hd, Hi, Hl. exact Hwf. }
  destruct (store_last_wf v s2 Hwf2) as [-> _].
  pose proof (lift_same_engine (_verify v)
    (set_last_timestamp now
       (set_i ((_i s2 + 1) mod _data_length s2)
          (set_data (<[Z.to_nat (_i s2):=F16.of_f64 v]> (_data s2)) s2))))
    as Hv.
  destruct (same_engine_fields _ _ Hv) as (Hd' & Hi' & Hl' & Ht').
  cbn zeta. rewrite Hd', Hi', Hl', Ht'. cbn. rewrite Hd, Hi, Hl. repeat split.
Qed.

Lemma update_wf now s : wf s -> wf (snd (Sensor.update now s)).
Proof.
  intros Hwf. destruct (accepted s) as [v|] eqn:Hacc.
  - destruct (update_accepted now s v Hwf Hacc) as (Hd & Hi & Hl & _).
    destruct Hwf as (HC & Hlen & Hi0). unfold wf. rewrite Hd, Hi, Hl.
    rewrite length_insert. split; [lia|]. split; [lia|].
    apply Z.mod_pos_bound. lia.
  - destruct (same_engine_fields _ _ (update_rejected now s Hacc))
      as (Hd & Hi & Hl & _).
    unfold wf. rewrite Hd, Hi, Hl. exact Hwf.
Qed.

Lemma reset_fields s :
  0 <= _data_length s ->
  let s' := snd (Sensor.reset s) in
  _data s' = replicate (Z.to_nat (_data_length s)) F16.zero /\
  _i s' = 0 /\
  _data_length s' = _data_length s /\
  _last_timestamp s' = _last_timestamp s.
Proof.
  intros HC. unfold Sensor.reset, Sensor.data_length, np_zeros.
  unfold mbind, M_bind, gets.
  destruct (decide (_data_length s < 0)); [lia|].
  pose proof (lift_same_engine _reset_device
    (set_i 0 (set_data (replicate (Z.to_nat (_data_length s)) F16.zero) s)))
    as Hr.
  destruct (same_engine_fields _ _ Hr) as (Hd & Hi & Hl & Ht).
  cbn zeta. rewrite Hd, Hi, Hl, Ht. repeat split.
Qed.

Lemma reset_wf s : 1 <= _data_length s -> wf (snd (Sensor.reset s)).
Proof.
  intros HC. destruct (reset_fields s) as (Hd & Hi & Hl & _); [lia|].
  unfold wf. rewrite Hd, Hi, Hl, length_replicate. lia.
Qed.

Lemma data_length_setter_fields n s :
  0 <= n ->
  let s' := snd (Sensor.data_length_setter n s) in
  _data s' = replicate (Z.to_nat n) F16.zero /\
  _i s' = 0 /\
  _data_length s' = n /\
  _last_timestamp s' = _last_timestamp s.
Proof.
  intros Hn. unfold Sensor.data_length_setter.
  unfold mbind, M_bind, modify.
  exact (reset_fields (set_data_length n s) Hn).
Qed.

Lemma step_wf c s : valid_call c -> wf s -> wf (step c s).
Proof.
  destruct c as [now| |n]; cbn [step valid_call]; intros Hc Hwf.
  - now apply update_wf.
  - apply reset_wf. apply Hwf.
  - destruct (data_length_setter_fields n s) as (Hd & Hi & Hl & _); [lia|].
    unfold wf. rewrite Hd, Hi, Hl, length_replicate. lia.
Qed.

Lemma init_wf d : wf (Sensor.__init__ d).
Proof.
  unfold wf, Sensor.__init__. cbn [_data _i _data_length].
  rewrite length_replicate. unfold Sensor._DEFAULT_STORED_OBSERVATIONS. lia.
Qed.

Lemma run_wf cs s : Forall valid_call cs -> wf s -> wf (run cs s).
Proof.
  intros Hcs. revert s. induction Hcs as [|c cs Hc _ IH]; intros s Hwf.
  - exact Hwf.
  - cbn [run]. apply IH. now apply step_wf.
Qed.

Lemma get_never s :
  _last_timestamp s = Sensor.never ->
  Sensor.get s = (Raise RuntimeWarning, s).
Proof. intros Ht. unfold Sensor.get. rewrite Ht. reflexivity. Qed.

Lemma get_slot s :
  wf s -> F64.eqb (_last_timestamp s) Sensor.never = false ->
  exists x,
    _data s !! Z.to_nat ((_i s - 1) mod _data_length s) = Some x /\
    Sensor.get s = (Ok x, s).
Proof.
  intros (HC & Hlen & Hi) Ht. unfold Sensor.get, np_index. rewrite Ht, Hlen.
  destruct (decide (_data_length s = 0)); [lia|].
  pose proof (Z.mod_pos_bound (_i s - 1) (_data_length s)) as Hm.
  destruct (decide (0 <= (_i s - 1) mod _data_length s < _data_length s));
    [|lia].
  destruct (lookup_lt_is_Some_2 (_data s)
              (Z.to_nat ((_i s - 1) mod _data_length s))) as [x Hx]; [lia|].
  exists x. now rewrite Hx.
Qed.

Lemma age_spec now s :
  F64.eqb (_last_timestamp s) Sensor.never = false ->
  Sensor.age now s = (Ok (F64.sub now (_last_timestamp s)), s).
Proof. intros Ht. unfold Sensor.age. now rewrite Ht. Qed.

Lemma step_stamped c s acc :
  valid_call c -> wf s -> stamped acc s ->
  stamped (last_stamp [c] s acc) (step c s).
Proof.
  destruct c as [now| |n]; cbn [step valid_call last_stamp]; intros Hc Hwf Hs.
  - destruct (accepted s) as [v|] eqn:Hacc.
    + destruct (update_accepted now s v Hwf Hacc) as (_ & _ & _ & Ht).
      split; assumption.
    + destruct (same_engine_fields _ _ (update_rejected now s Hacc))
        as (_ & _ & _ & Ht).
      destruct acc; cbn in *; now rewrite Ht.
  - destruct (reset_fields s) as (_ & _ & _ & Ht); [destruct Hwf; lia|].
    destruct acc; cbn in *; now rewrite Ht.
  - destruct (data_length_setter_fields n s) as (_ & _ & _ & Ht); [lia|].
    destruct acc; cbn in *; now rewrite Ht.
Qed.

Lemma run_stamped cs s acc :
  Forall valid_call cs -> wf s -> stamped acc s ->
  stamped (last_stamp cs s acc) (run cs s).
Proof.
  intros Hcs. revert s acc.
  induction Hcs as [|c cs Hc _ IH]; intros s acc Hwf Hs; [exact Hs|].
  cbn [run last_stamp]. apply IH; [now apply step_wf|].
  exact (step_stamped c s acc Hc Hwf Hs).
Qed.






Lemma reset_base s :
  0 <= _data_length s ->
  (forall s, _reset_device s = (Ok tt, dev s)) ->
  Sensor.reset s
  = (Ok tt, cleared (_data_length s) (_last_timestamp s) (dev s)).
Proof.
  intros HC Hbase. unfold Sensor.reset, Sensor.data_length, np_zeros.
  unfold mbind, M_bind, gets, lift.
  destruct (decide (_data_length s < 0)); [lia|].
  rewrite Hbase. reflexivity.
Qed.

(** C10: reset() zeroes the buffer and the cursor and leaves the
    timestamp of the last storing update; so on a sensor that has
    stored a reading, and whose class does not extend reset(), after
    reset() the data sequence is empty and the subclass's attributes
    (the calibration) are as before, yet get() does not raise but
    returns the zeroed slot 0.0, and age() still measures from the
    update made before the reset. *)
Theorem reset_keeps_timestamp d cs t now :
  Forall valid_call cs ->
  (forall s, _reset_device s = (Ok tt, dev s)) ->
  last_stamp cs (Sensor.__init__ d) None = Some t ->
  exists s',
    Sensor.reset (run cs (Sensor.__init__ d)) = (Ok tt, s') /\
    s' = cleared (_data_length (run cs (Sensor.__init__ d))) t
                 (dev (run cs (Sensor.__init__ d))) /\
    Sensor.data s' = (Ok [], s') /\
    Sensor.get s' = (Ok F16.zero, s') /\
    Sensor.age now s' = (Ok (F64.sub now t), s').
Proof.
  intros Hcs Hbase Hlast.
  pose proof (run_wf cs _ Hcs (init_wf d)) as Hwf.
  pose proof (run_stamped cs _ None Hcs (init_wf d) eq_refl) as Hst.
  rewrite Hlast in Hst. destruct Hst as [Ht Hne].
  set (s := run cs (Sensor.__init__ d)) in *.
  destruct Hwf as (HC & Hlen & Hi).
  assert (Hreset : Sensor.reset s
                   = (Ok tt, cleared (_data_length s) t (dev s))).
  { rewrite reset_base by (assumption || lia). now rewrite Ht. }
  eexists. split; [exact Hreset|]. split; [reflexivity|].
  split; [|split].
  - unfold Sensor.data, Sensor.data_length.
    unfold mbind, M_bind, gets, mret, M_ret.
    f_equal. f_equal. cbn [cleared _data _i _data_length].
    unfold np_roll. rewrite length_replicate.
    destruct (decide (Z.of_nat (Z.to_nat (_data_length s)) = 0)); [lia|].
    rewrite drop_replicate, take_replicate, <- replicate_add.
    induction (_ + _)%nat as [|k IH]; [reflexivity|].
    cbn. exact IH.
  - destruct (get_slot (cleared (_data_length s) t (dev s)))
      as (x & Hx & Hget); [| exact Hne |].
    + unfold wf. cbn. rewrite length_replicate. lia.
    + rewrite Hget. f_equal. f_equal.
      cbn [cleared _data] in Hx. apply lookup_replicate in Hx. apply Hx.
  - now apply age_spec.
Qed.
End EngineFacts.

(** ** The observation buffer *)

Section Rotation.
Context {A : Type}.
Implicit Types (l : list A) (i : nat) (v : A).

Lemma rot_push_inner l i v :
  (S i < length l)%nat ->
  drop (S i) (<[i:=v]> l) ++ take (S i) (<[i:=v]> l)
  = tail (drop i l ++ take i l) ++ [v].
Proof.
  intros Hi.
  destruct (lookup_lt_is_Some_2 l i) as [x Hx]; [lia|].
  rewrite insert_take_drop by lia.
  rewrite (drop_S l x i Hx). cbn [tail app].
  replace (take i l ++ v :: drop (S i) l)
    with ((take i l ++ [v]) ++ drop (S i) l) by now rewrite <- app_assoc.
  assert (Hlen : length (take i l ++ [v]) = S i).
  { rewrite length_app, length_take. cbn. lia. }
  rewrite (drop_app_length' _ _ (S i)), (take_app_length' _ _ (S i))
    by now symmetry.
  now rewrite <- app_assoc.
Qed.

Lemma rot_push_wrap l i v :
  S i = length l ->
  <[i:=v]> l = tail (drop i l ++ take i l) ++ [v].
Proof.
  intros Hi.
  destruct (lookup_lt_is_Some_2 l i) as [x Hx]; [lia|].
  rewrite insert_take_drop by lia.
  rewrite (drop_S l x i Hx). cbn [tail app].
  rewrite (drop_ge l (S i)) by lia. now rewrite app_nil_l.
Qed.

Lemma np_roll_cursor l (c i : Z) :
  Z.of_nat (length l) = c -> 0 <= i < c ->
  np_roll l (c - i) = drop (Z.to_nat i) l ++ take (Z.to_nat i) l.
Proof.
  intros Hlen Hi. unfold np_roll. rewrite Hlen.
  destruct (decide (c = 0)); [lia|].
  destruct (decide (i = 0)) as [->|Hne].
  - rewrite Z.sub_0_r, Z_mod_same_full, Z.sub_0_r.
    rewrite drop_ge, take_ge by lia. cbn. now rewrite app_nil_r.
  - rewrite Z.mod_small by lia. now replace (c - (c - i)) with i by lia.
Qed.
End Rotation.

Section Buffer.
Context {D : Type}.
Implicit Types (s : Sensor D) (v : float64) (ws : list float16).

Import History.

(** The buffer as [data] reads it: oldest slot first. *)
Lemma push_rolled v s :
  wf s ->
  let s' := snd (Sensor.__store_last v s) in
  wf s' /\ _data_length s' = _data_length s /\
  _last_timestamp s' = _last_timestamp s /\ dev s' = dev s /\
  np_roll (_data s') (_data_length s' - _i s')
  = tail (np_roll (_data s) (_data_length s - _i s)) ++ [F16.of_f64 v].
Proof.
  intros Hwf.
  destruct (store_last_wf v s Hwf) as [Hst Hwf'].
  rewrite Hst in *. cbn [snd] in *. cbn zeta.
  split; [exact Hwf'|]. do 3 (split; [reflexivity|]).
  destruct Hwf as (HC & Hlen & Hi).
  rewrite (np_roll_cursor (_data s) (_data_length s) (_i s)) by lia.
  cbn [set_i set_data _data _i _data_length].
  rewrite np_roll_cursor;
    [|now rewrite length_insert|apply Z.mod_pos_bound; lia].
  destruct (decide (_i s + 1 < _data_length s)) as [Hlt|Hge].
  - rewrite Z.mod_small by lia.
    replace (Z.to_nat (_i s + 1)) with (S (Z.to_nat (_i s))) by lia.
    apply rot_push_inner. lia.
  - replace (_i s + 1) with (_data_length s) by lia.
    rewrite Z_mod_same_full. cbn [Z.to_nat drop take]. rewrite app_nil_r.
    apply rot_push_wrap. lia.
Qed.

Lemma window_push (c : nat) ws (x : float16) :
  (1 <= c)%nat -> tail (window c ws) ++ [x] = window c (ws ++ [x]).
Proof.
  intros Hc. unfold window. rewrite length_app. cbn [length].
  destruct (decide (length ws < c)%nat) as [Hlt|Hge].
  - replace (c - length ws)%nat with (S (c - (length ws + 1))) by lia.
    replace (length ws - c)%nat with O by lia.
    replace (length ws + 1 - c)%nat with O by lia.
    cbn [replicate tail drop app]. now rewrite <- app_assoc.
  - replace (c - length ws)%nat with O by lia.
    replace (c - (length ws + 1))%nat with O by lia.
    cbn [replicate app].
    destruct (lookup_lt_is_Some_2 ws (length ws - c)) as [y Hy]; [lia|].
    rewrite (drop_S ws y _ Hy). cbn [tail].
    rewrite drop_app_le by lia. do 2 f_equal. lia.
Qed.

Lemma pushes_rolled vs : forall s ws,
  wf s ->
  np_roll (_data s) (_data_length s - _i s)
  = window (Z.to_nat (_data_length s)) ws ->
  wf (pushes vs s) /\
  _data_length (pushes vs s) = _data_length s /\
  np_roll (_data (pushes vs s))
          (_data_length (pushes vs s) - _i (pushes vs s))
  = window (Z.to_nat (_data_length s)) (ws ++ (F16.of_f64 <$> vs)).
Proof.
  induction vs as [|v vs IH]; intros s ws Hwf Hroll.
  - cbn. now rewrite app_nil_r.
  - cbn [pushes fmap list_fmap].
    destruct (push_rolled v s Hwf) as (Hwf' & Hl & _ & _ & Hr).
    cbn zeta in *. rewrite Hroll, window_push in Hr
      by (destruct Hwf; lia).
    rewrite <- Hl in Hr.
    destruct (IH _ _ Hwf' Hr) as (Hwf'' & Hl'' & Hr'').
    split; [exact Hwf''|]. split; [congruence|].
    rewrite Hr'', Hl, <- app_assoc. reflexivity.
Qed.

Lemma filter_zeros (n : nat) :
  filter (fun x => F16.astype_bool x = true) (replicate n F16.zero) = [].
Proof.
  induction n as [|n IH]; [reflexivity|].
  cbn [replicate]. rewrite filter_cons_False; [exact IH|]. cbn. discriminate.
Qed.

Lemma filter_nonzero ws :
  Forall (fun x => F16.astype_bool x = true) ws ->
  filter (fun x => F16.astype_bool x = true) ws = ws.
Proof.
  induction 1 as [|x ws Hx _ IH]; [reflexivity|].
  rewrite filter_cons_True by exact Hx. now rewrite IH.
Qed.

(** X1: the buffer works as a ring for readings that are not stored as
    zero: after any number of pushes into a cleared buffer of capacity
    [c], [data] is the last min(N, c) stored values, oldest first. *)
Lemma data_of_nonzero_pushes (c : Z) t (d : D) vs :
  1 <= c ->
  Forall (fun v => F16.astype_bool (F16.of_f64 v) = true) vs ->
  Sensor.data (pushes vs (cleared c t d))
  = (Ok (drop (length vs - Z.to_nat c) (F16.of_f64 <$> vs)),
     pushes vs (cleared c t d)) /\
  length (drop (length vs - Z.to_nat c) (F16.of_f64 <$> vs))
  = Nat.min (length vs) (Z.to_nat c).
Proof.
  intros Hc Hnz. split; [|rewrite length_drop, length_fmap; lia].
  assert (Hwf : wf (cleared c t d)).
  { unfold wf. cbn. rewrite length_replicate. lia. }
  destruct (pushes_rolled vs (cleared c t d) [] Hwf) as (_ & Hl & Hr).
  { rewrite np_roll_cursor; cbn; rewrite ?length_replicate; try lia.
    unfold window. change (Z.to_nat 0) with O. cbn [drop take length].
    now rewrite Nat.sub_0_r, drop_nil. }
  unfold Sensor.data, Sensor.data_length.
  unfold mbind, M_bind, gets, mret, M_ret. f_equal. f_equal.
  rewrite Hr. cbn [cleared _data_length app]. unfold window.
  rewrite filter_app, filter_zeros, app_nil_l, length_fmap.
  apply filter_nonzero, Forall_drop. now apply Forall_fmap.
Qed.
End Buffer.

(** ** How often update() verifies *)

Section Verifications.
Context {D : Type} `{Device D}.
Implicit Types (s : Sensor (D * nat)) (now v : float64).

Import Counted.

Lemma verifies_bind {A B} n k (m : M (Sensor (D * nat)) A)
    (f : A -> M (Sensor (D * nat)) B) :
  verifies n m -> (forall a, verifies k (f a)) -> verifies (n + k) (m ≫= f).
Proof.
  intros Hm Hf s b s'. unfold mbind, M_bind.
  destruct (m s) as [[a|e] s1] eqn:Hms; [|discriminate].
  intros Hfs. rewrite (Hf a _ _ _ Hfs), (Hm _ _ _ Hms). lia.
Qed.

Lemma verifies_keep {A} (c : Cap D A) : verifies 0 (lift (keep c)).
Proof.
  intros s a s'. unfold lift, keep, verify_calls.
  destruct (c (forget s)). now intros [= _ <-].
Qed.

Lemma verifies_tick {A} (c : Cap D A) : verifies 1 (lift (tick c)).
Proof.
  intros s a s'. unfold lift, tick, verify_calls.
  destruct (c (forget s)). now intros [= _ <-].
Qed.

Lemma verifies_store_last v :
  verifies 0 (Sensor.__store_last (D := D * nat) v).
Proof.
  intros s a s'. unfold Sensor.__store_last.
  destruct (np_index _ _); [|discriminate].
  cbn [set_data _data_length].
  destruct (decide (_data_length s = 0)); [discriminate|].
  now intros [= _ <-].
Qed.

Lemma verifies_stamp now :
  verifies 0 (modify (S := Sensor (D * nat)) (set_last_timestamp now)).
Proof. intros s a s'. unfold modify. now intros [= _ <-]. Qed.

Lemma verifies_ret {A} (a : A) :
  verifies 0 (mret (M := M (Sensor (D * nat))) a).
Proof. intros s a' s'. unfold mret, M_ret. now intros [= _ <-]. Qed.

(** Every update() that returns has called the device's verification
    twice: once to decide whether to store, once more for the value
    it returns. *)
Lemma update_verifies_twice now : verifies 2 (Sensor.update now).
Proof.
  unfold Sensor.update, Sensor._read.
  apply (verifies_bind 0 2).
  { apply (verifies_bind 0 0); [apply verifies_keep|].
    intros raw. apply verifies_keep. }
  intros v. apply (verifies_bind 1 1); [apply verifies_tick|].
  intros ok. apply (verifies_bind 0 1); [|intros _; apply verifies_tick].
  destruct ok; [|apply verifies_ret].
  apply (verifies_bind 0 0); [apply verifies_store_last|].
  intros _. apply verifies_stamp.
Qed.
End Verifications.

(** ** The devices *)

Section Analog.
Implicit Types (s : Sensor AnalogSensor) (value : float64).

(** What [_verify] does, on a sensor whose conversion_factor is not
    zero: it accepts a converted reading iff
    0 <= value/conversion_factor <= 1 and then leaves the calibration
    alone; on rejection it sets offset_voltage to
    min(offset_voltage, value), where value is the converted reading
    (the raw one is not passed to it), then output_span to
    max(output_span, value - offset_voltage) with the new offset, and
    reports the reading as failed. *)
Lemma analog_verify_widens s value :
  F64.is_zero (conversion_factor (dev s)) = false ->
  let q := SFdiv F64.prec F64.emax value (conversion_factor (dev s)) in
  let report := F64.leb (F64.of_Z 0) q && F64.leb q (F64.of_Z 1) in
  let d' := snd (AnalogSensor._verify value s) in
  fst (AnalogSensor._verify value s) = Ok report /\
  (report = true -> d' = dev s) /\
  (report = false ->
     offset_voltage d' = F64.min (offset_voltage (dev s)) value /\
     output_span d'
     = F64.max (output_span (dev s)) (F64.sub value (offset_voltage d')) /\
     conversion_factor d' = conversion_factor (dev s) /\
     adc d' = adc (dev s) /\
     (F64.is_nan (offset_voltage (dev s)) = false ->
      F64.is_nan value = false ->
      F64.leb (offset_voltage d')
              (F64.min (offset_voltage (dev s)) value) = true /\
      F64.leb (offset_voltage d') (offset_voltage (dev s)) = true /\
      F64.leb (offset_voltage d') value = true)).
Proof.
  intros Hcf. cbn zeta. unfold AnalogSensor._verify, F64.div. rewrite Hcf.
  destruct (F64.leb (F64.of_Z 0) _ && F64.leb _ (F64.of_Z 1)) eqn:Hrep;
    cbn [negb fst snd].
  - split; [reflexivity|]. split; [reflexivity|]. discriminate.
  - split; [reflexivity|]. split; [discriminate|]. intros _.
    cbn. repeat (split; [reflexivity|]).
    intros Ho Hv. destruct (min_leb _ _ Ho Hv) as [H1 H2].
    split; [|split; assumption].
    apply leb_refl. now apply min_is_nan.
Qed.
End Analog.

(** With the default calibration a reading of -5 V converts to -1.0 and
    is rejected; offset_voltage becomes -1.0, the converted value, which
    is neither min(0, -5) nor below it. *)
Lemma offset_follows_converted_value :
  let s := Examples.voltmeter (F64.of_Z (-5)) in
  let raw := F64.of_Z (-5) in
  let value := F64.of_Z (-1) in
  fst (AnalogSensor._raw_read s) = Ok raw /\
  fst (AnalogSensor._convert raw s) = Ok value /\
  fst (AnalogSensor._verify value s) = Ok false /\
  offset_voltage (snd (AnalogSensor._verify value s)) = value /\
  offset_voltage (snd (AnalogSensor._verify value s))
    <> F64.min (offset_voltage (dev s)) raw /\
  F64.leb (offset_voltage (snd (AnalogSensor._verify value s)))
          (F64.min (offset_voltage (dev s)) raw) = false.
Proof. vm_compute. repeat split; discriminate. Qed.

Lemma analog_verify_widens_witness :
  F64.is_zero (conversion_factor (dev (Examples.voltmeter (F64.of_Z (-5)))))
  = false /\
  offset_voltage
    (snd (AnalogSensor._verify (F64.of_Z (-1))
            (Examples.voltmeter (F64.of_Z (-5)))))
  = F64.min (F64.of_Z 0) (F64.of_Z (-1)).
Proof.
  split; [reflexivity|].
  apply (analog_verify_widens (Examples.voltmeter (F64.of_Z (-5)))
           (F64.of_Z (-1)) eq_refl).
  reflexivity.
Defined.

Lemma stuck_voltmeter_step k :
  History.step (History.DoUpdate (Examples.second 100))
    (Examples.stuck_voltmeter k)
  = Examples.stuck_voltmeter (S k).
Proof. vm_compute. reflexivity. Qed.

Lemma stuck_voltmeter_run n k :
  History.run (replicate n (History.DoUpdate (Examples.second 100)))
    (Examples.stuck_voltmeter k)
  = Examples.stuck_voltmeter (n + k).
Proof.
  revert k. induction n as [|n IH]; intros k; [reflexivity|].
  cbn [replicate History.run]. rewrite stuck_voltmeter_step, IH.
  f_equal. lia.
Qed.

(** C4: the widening of the calibration by a rejected reading does
    neither what the claim says nor what the comment in _verify
    intends (to expand the calibration range whenever the bounds are
    exceeded).  A voltmeter with the default calibration on an ADC at
    -5 V rejects the reading, which converts to -1.0, and sets
    offset_voltage, a voltage, to that normalised -1.0 and not to
    min(0, -5) = -5; from then on the calibration stays at
    offset_voltage -1.0 and output_span 5, and every later update
    rejects the same reading and stores nothing.  With offset_voltage
    -5, the value the claim gives, the reading is accepted.  At 10 V
    the reading is rejected and the calibration does not change at
    all. *)
Theorem widening_never_admits_the_reading :
  let s := Examples.voltmeter (F64.of_Z (-5)) in
  let c := History.DoUpdate (Examples.second 100) in
  let t := Examples.voltmeter (F64.of_Z 10) in
  fst (AnalogSensor._raw_read s) = Ok (F64.of_Z (-5)) /\
  fst (Sensor._read s) = Ok (F64.of_Z (-1)) /\
  fst (Sensor.update (Examples.second 100) s) = Ok false /\
  offset_voltage (dev (History.run [c] s)) = F64.of_Z (-1) /\
  offset_voltage (dev (History.run [c] s))
  <> F64.min (offset_voltage (dev s)) (F64.of_Z (-5)) /\
  (forall n : nat,
     offset_voltage (dev (History.run (replicate (S n) c) s))
     = F64.of_Z (-1) /\
     output_span (dev (History.run (replicate (S n) c) s)) = F64.of_Z 5 /\
     fst (Sensor.update (Examples.second 100)
            (History.run (replicate (S n) c) s)) = Ok false /\
     fst (Sensor.data (History.run (replicate (S n) c) s)) = Ok []) /\
  fst (Sensor.update (Examples.second 100)
         (AnalogSensor.__init__ (Examples.steady_adc (F64.of_Z (-5)))
            (Some (F64.of_Z (-5))) None None)) = Ok true /\
  fst (Sensor.update (Examples.second 100) t) = Ok false /\
  offset_voltage (dev (snd (Sensor.update (Examples.second 100) t)))
  = offset_voltage (dev t) /\
  output_span (dev (snd (Sensor.update (Examples.second 100) t)))
  = output_span (dev t).
Proof.
  cbv zeta.
  split; [reflexivity|]. split; [vm_compute; reflexivity|].
  split; [vm_compute; reflexivity|]. split; [vm_compute; reflexivity|].
  split; [vm_compute; discriminate|]. split.
  - intros n. cbn [replicate History.run].
    change (History.step (History.DoUpdate (Examples.second 100))
              (Examples.voltmeter (F64.of_Z (-5))))
      with (Examples.stuck_voltmeter 1).
    rewrite stuck_voltmeter_run. generalize (n + 1)%nat. intros k.
    vm_compute. repeat split.
  - vm_compute. repeat split.
Qed.

Section Flow.
Lemma forall_from_spec n lo P :
  forall_from n lo P = true ->
  forall k, lo <= k < lo + Z.of_nat n -> P k = true.
Proof.
  revert lo. induction n as [|n IH]; intros lo Hall k Hk; [lia|].
  cbn [forall_from] in Hall. apply andb_true_iff in Hall as [H0 Hrest].
  destruct (decide (k = lo)) as [->|Hne]; [exact H0|].
  apply (IH (lo + 1) Hrest). lia.
Qed.

Lemma flow_multiples_exact :
  forall_from (Z.to_nat 820) (-546)
    (fun k =>
       match F64.int_truediv (120 * k) SFM3200._FLOW_SCALE_FACTOR with
       | Ok x => bool_decide (x = F64.of_Z k)
       | Raise _ => false
       end) = true.
Proof. vm_compute. reflexivity. Qed.

(** C9: for a raw signed 16-bit reading, convert(raw) is the float
    quotient (raw - 32768) / 120 and raises nothing; on every reading
    32768 + 120 k that 16 bits can hold, signed or not, the quotient is
    exactly the float k, so convert(32768) = 0.0 and
    convert(32768 + 120) = 1.0; and verify returns true for every
    value. *)
Theorem flow_convert_verify raw k value (s : Sensor I2CDevice) :
  -32768 <= raw <= 32767 ->
  -32768 <= 32768 + 120 * k <= 65535 ->
  SFM3200._convert raw s
  = (Ok (SFdiv F64.prec F64.emax (F64.of_Z (raw - 32768)) (F64.of_Z 120)),
     dev s) /\
  SFM3200._convert (32768 + 120 * k) s = (Ok (F64.of_Z k), dev s) /\
  SFM3200._convert 32768 s = (Ok (S754_zero false), dev s) /\
  SFM3200._convert (32768 + 120) s = (Ok (F64.of_Z 1), dev s) /\
  SFM3200._verify value s = (Ok true, dev s).
Proof.
  intros Hraw Hk. split; [reflexivity|]. split; [|repeat split].
  pose proof (forall_from_spec _ _ _ flow_multiples_exact k) as Hq.
  cbv beta in Hq. unfold SFM3200._convert, SFM3200._FLOW_OFFSET.
  replace (32768 + 120 * k - 32768) with (120 * k) by lia.
  destruct (F64.int_truediv (120 * k) SFM3200._FLOW_SCALE_FACTOR) as [x|e].
  - do 2 f_equal. eapply bool_decide_eq_true_1. apply Hq. lia.
  - discriminate Hq. lia.
Qed.
End Flow.

Lemma flow_convert_verify_witness :
  -32768 <= 0 <= 32767 /\
  -32768 <= 32768 + 120 * 2 <= 65535 /\
  SFM3200._convert (32768 + 120 * 2)
    (Sensor.__init__ (Examples.flow_bus [0; 0; 0; 0]))
  = (Ok (F64.of_Z 2), Examples.flow_bus [0; 0; 0; 0]).
Proof.
  split; [lia|]. split; [lia|].
  apply (flow_convert_verify 0 2 (F64.of_Z 0)
           (Sensor.__init__ (Examples.flow_bus [0; 0; 0; 0]))); lia.
Defined.

Section Concrete.
Import Examples History.

(** C1: a reading of zero is verified and stored, but data() leaves it
    out: a voltmeter reading 0 V has an empty data sequence after one
    successful update, and of the pushes 1.0, 0.0, 2.0 into a buffer of
    capacity 4 data() returns only the two others. *)
Theorem zero_reading_missing_from_data :
  accepted (voltmeter (F64.of_Z 0)) = Some (S754_zero false) /\
  fst (Sensor.update (second 100) (voltmeter (F64.of_Z 0))) = Ok true /\
  _i (run [DoUpdate (second 100)] (voltmeter (F64.of_Z 0))) = 1 /\
  fst (Sensor.data (run [DoUpdate (second 100)] (voltmeter (F64.of_Z 0))))
  = Ok [] /\
  fst (Sensor.data
         (pushes [F64.of_Z 1; F64.of_Z 0; F64.of_Z 2]
                 (cleared 4 Sensor.never tt)))
  = Ok [f16 1 1; f16 2 1].
Proof. vm_compute. repeat split. Qed.

(** C2: update() calls verify twice and returns what the second call
    says: on a simulated sensor whose third random draw exceeds .999,
    the first verification accepts the reading 50.0, which is stored,
    the second rejects it, and update() returns False. *)
Theorem update_returns_second_verdict :
  accepted (sim 2) = Some (F64.of_Z 50) /\
  fst (Sensor.update (second 100) (Counted.watch (sim 2))) = Ok false /\
  Counted.verify_calls
    (snd (Sensor.update (second 100) (Counted.watch (sim 2)))) = 2%nat /\
  rng_drawn (dev (snd (Sensor.update (second 100) (sim 2)))) = 3%nat.
Proof. vm_compute. repeat split. Qed.

(** C3: what update() returns need not tell whether the reading was
    stored.  With the third draw above .999 it returns False although
    the reading 50.0 is in the buffer, the cursor has advanced and the
    timestamp is the time of the call; with the second draw above .999
    it returns True although nothing was stored and the timestamp is
    still the sentinel. *)
Theorem update_verdict_differs_from_storing :
  (fst (Sensor.update (second 100) (sim 2)) = Ok false /\
   _data (snd (Sensor.update (second 100) (sim 2))) !! 0%nat
   = Some (f16 50 1) /\
   _i (snd (Sensor.update (second 100) (sim 2))) = 1 /\
   _last_timestamp (snd (Sensor.update (second 100) (sim 2)))
   = second 100) /\
  (fst (Sensor.update (second 100) (sim 1)) = Ok true /\
   _data (snd (Sensor.update (second 100) (sim 1))) = _data (sim 1) /\
   _i (snd (Sensor.update (second 100) (sim 1))) = 0 /\
   _last_timestamp (snd (Sensor.update (second 100) (sim 1)))
   = Sensor.never).
Proof. vm_compute. repeat split. Qed.
End Concrete.



Lemma reset_keeps_timestamp_witness :
  Forall History.valid_call [History.DoUpdate (Examples.second 100)] /\
  (forall s : Sensor AnalogSensor, _reset_device s = (Ok tt, dev s)) /\
  exists s',
    Sensor.reset
      (History.run [History.DoUpdate (Examples.second 100)]
         (Examples.voltmeter (Examples.ratio 5 2))) = (Ok tt, s') /\
    fst (Sensor.data s') = Ok [] /\
    fst (Sensor.get s') = Ok F16.zero /\
    fst (Sensor.age (Examples.second 160) s') = Ok (Examples.second 60) /\
    offset_voltage (dev s') = F64.of_Z 0 /\
    output_span (dev s') = F64.of_Z 5.
Proof.
  assert (Hv : Forall History.valid_call
                 [History.DoUpdate (Examples.second 100)]).
  { constructor; [reflexivity|constructor]. }
  split; [exact Hv|]. split; [reflexivity|].
  destruct (reset_keeps_timestamp (H := AnalogSensor.device)
              (dev (Examples.voltmeter (Examples.ratio 5 2))) _
              (Examples.second 100) (Examples.second 160) Hv
              (fun s => eq_refl (Ok tt, dev s)) eq_refl)
    as (s' & Hr & Hs' & Hd & Hg & Ha).
  exists s'. split; [exact Hr|].
  rewrite Hd, Hg, Ha. cbn [fst]. repeat split.
  - rewrite Hs'. reflexivity.
  - rewrite Hs'. reflexivity.
Defined.

Lemma ids_distinct_increasing_witness :
  exists l,
    Alarm.constructs Examples.OFF
      [Examples.alarm_args Examples.HIGH 10;
       Examples.alarm_args Examples.OFF 11;
       Examples.alarm_args Examples.LOW 12] Alarm.id_counter
    = (Ok l, 3) /\
    (forall a b, l !! 0%nat = Some a -> l !! 2%nat = Some b ->
       Alarm.id a < Alarm.id b).
Proof.
  destruct (ids_distinct_increasing Examples.OFF
              [Examples.alarm_args Examples.HIGH 10;
               Examples.alarm_args Examples.OFF 11;
               Examples.alarm_args Examples.LOW 12] Alarm.id_counter)
    as (l & Hl & _ & Hlt & _).
  exists l. split; [exact Hl|].
  intros a b Ha Hb. apply (Hlt 0%nat 2%nat a b); [lia|exact Ha|exact Hb].
Defined.

(** ** More on the sensor engine *)

Section EngineMore.
Context {D : Type} `{Device D}.

Implicit Types (s : Sensor D) (now t v : float64) (d : D).

Import History.

(** The engine fields after one [update], by the verdict of the first
    verification. *)
Lemma update_effect now s :
  wf s ->
  _data_length (snd (Sensor.update now s)) = _data_length s /\
  match accepted s with
  | Some v =>
      _data (snd (Sensor.update now s))
      = <[Z.to_nat (_i s) := F16.of_f64 v]> (_data s) /\
      _i (snd (Sensor.update now s)) = (_i s + 1) mod _data_length s /\
      _last_timestamp (snd (Sensor.update now s)) = now
  | None =>
      _data (snd (Sensor.update now s)) = _data s /\
      _i (snd (Sensor.update now s)) = _i s /\
      _last_timestamp (snd (Sensor.update now s)) = _last_timestamp s
  end.
Proof.
  intros Hwf. destruct (accepted s) as [v|] eqn:Hacc.
  - destruct (update_accepted now s v Hwf Hacc) as (Hd & Hi & Hl & Ht).
    repeat split; assumption.
  - destruct (same_engine_fields _ _ (update_rejected now s Hacc))
      as (Hd & Hi & Hl & Ht).
    repeat split; assumption.
Qed.

(** X2: an update() on a well-formed sensor stores exactly when its
    first verification accepts the reading: then the float16 of the
    reading is written at the cursor, the cursor advances modulo the
    capacity and the timestamp becomes the clock reading; otherwise
    buffer, cursor and timestamp are untouched.  The capacity never
    changes. *)
Theorem update_stores_iff_accepted now s :
  wf s ->
  _data_length (snd (Sensor.update now s)) = _data_length s /\
  match accepted s with
  | Some v =>
      _data (snd (Sensor.update now s))
      = <[Z.to_nat (_i s) := F16.of_f64 v]> (_data s) /\
      _i (snd (Sensor.update now s)) = (_i s + 1) mod _data_length s /\
      _last_timestamp (snd (Sensor.update now s)) = now
  | None => same_engine s (snd (Sensor.update now s))
  end.
Proof.
  intros Hwf. pose proof (update_effect now s Hwf) as [Hl Hst].
  split; [exact Hl|]. destruct (accepted s) as [v|] eqn:Hacc; [exact Hst|].
  exact (update_rejected now s Hacc).
Qed.

Lemma data_total s :
  Sensor.data s
  = (Ok (filter (fun x => F16.astype_bool x = true)
           (np_roll (_data s) (_data_length s - _i s))), s).
Proof. reflexivity. Qed.

Lemma np_roll_length {A} (l : list A) k : length (np_roll l k) = length l.
Proof.
  unfold np_roll. destruct (decide (Z.of_nat (length l) = 0)); [reflexivity|].
  rewrite length_app, length_drop, length_take. lia.
Qed.

Lemma data_bounded s :
  wf s ->
  exists l, Sensor.data s = (Ok l, s) /\ Z.of_nat (length l) <= _data_length s.
Proof.
  intros (_ & Hlen & _). eexists. split; [apply data_total|].
  pose proof (length_filter (fun x => F16.astype_bool x = true)
                (np_roll (_data s) (_data_length s - _i s))) as Hf.
  rewrite np_roll_length in Hf. lia.
Qed.

Lemma step_capacity c s :
  valid_call c -> wf s -> Trace.is_resize c = false ->
  _data_length (step c s) = _data_length s.
Proof.
  destruct c as [now| |n]; cbn [step valid_call Trace.is_resize];
    intros Hc Hwf Hr; [| |discriminate].
  - apply (update_effect now s Hwf).
  - destruct (reset_fields s) as (_ & _ & Hl & _); [destruct Hwf; lia|].
    exact Hl.
Qed.

Lemma run_capacity cs s :
  Forall valid_call cs -> wf s -> Trace.no_resize cs ->
  _data_length (run cs s) = _data_length s.
Proof.
  intros Hcs. revert s. induction Hcs as [|c cs Hc _ IH]; intros s Hwf Hnr.
  - reflexivity.
  - apply Forall_cons in Hnr as [Hr Hnr]. cbn [run].
    rewrite IH by (try apply step_wf; assumption).
    now apply step_capacity.
Qed.

(** X4: setting data_length to n >= 1 discards the history (data() is
    empty right afterwards), and as long as data_length is not set again
    data() never returns more than n values. *)
Theorem resize_discards_history n cs s :
  1 <= n -> Forall valid_call cs -> Trace.no_resize cs ->
  Sensor.data (snd (Sensor.data_length_setter n s))
  = (Ok [], snd (Sensor.data_length_setter n s)) /\
  exists l,
    Sensor.data (run (DoSetDataLength n :: cs) s)
    = (Ok l, run (DoSetDataLength n :: cs) s) /\
    Z.of_nat (length l) <= n.
Proof.
  intros Hn Hcs Hnr.
  destruct (data_length_setter_fields n s) as (Hd & Hi & Hl & _); [lia|].
  assert (Hwf : wf (snd (Sensor.data_length_setter n s))).
  { unfold wf. rewrite Hd, Hi, Hl, length_replicate. lia. }
  split.
  - rewrite data_total. do 2 f_equal. rewrite Hd, Hi, Hl.
    rewrite np_roll_cursor by (rewrite ?length_replicate; lia).
    rewrite drop_replicate, take_replicate, <- replicate_add.
    apply filter_zeros.
  - cbn [run step].
    destruct (data_bounded (run cs (snd (Sensor.data_length_setter n s))))
      as (l & Hdata & Hlen); [now apply run_wf|].
    exists l. split; [exact Hdata|].
    rewrite run_capacity in Hlen by assumption. now rewrite Hl in Hlen.
Qed.

(** X5: after any history of calls on a fresh sensor, age() returns
    -1.0 if no update has stored a reading yet, and otherwise the clock
    reading minus that of the last update that stored; reset() and
    resizing do not restart it. *)
Theorem age_since_last_store d cs now :
  Forall valid_call cs ->
  Sensor.age now (run cs (Sensor.__init__ d))
  = (Ok match last_stamp cs (Sensor.__init__ d) None with
        | None => F64.of_Z (-1)
        | Some t => F64.sub now t
        end,
     run cs (Sensor.__init__ d)).
Proof.
  intros Hcs.
  pose proof (run_stamped cs _ None Hcs (init_wf d) eq_refl) as Hst.
  destruct (last_stamp cs (Sensor.__init__ d) None) as [t|]; cbn in Hst.
  - destruct Hst as [Ht Hne]. rewrite age_spec by now rewrite Ht.
    now rewrite Ht.
  - unfold Sensor.age. now rewrite Hst.
Qed.

(** X6: setting data_length to a negative number raises ValueError
    (from np.zeros) after the attribute has been assigned: data_length
    then returns the negative number while the buffer and the cursor
    are as before. *)
Theorem negative_resize_not_rolled_back n s :
  n < 0 ->
  Sensor.data_length_setter n s = (Raise ValueError, set_data_length n s) /\
  Sensor.data_length (snd (Sensor.data_length_setter n s))
  = (Ok n, set_data_length n s) /\
  _data (snd (Sensor.data_length_setter n s)) = _data s /\
  _i (snd (Sensor.data_length_setter n s)) = _i s.
Proof.
  intros Hn.
  assert (Hset : Sensor.data_length_setter n s
                 = (Raise ValueError, set_data_length n s)).
  { unfold Sensor.data_length_setter, Sensor.reset, Sensor.data_length.
    unfold mbind, M_bind, modify, gets, np_zeros. cbn.
    destruct (decide (n < 0)); [reflexivity|lia]. }
  rewrite Hset. repeat split.
Qed.

End EngineMore.

(** ** More on the verifications of an update *)

Section VerificationsMore.
Context {D : Type} `{Device D}.

(** X3: every update() that returns has called the device's
    verification exactly twice, whether or not the reading was stored:
    once to decide whether to store, once more for the value it
    returns. *)
Theorem update_calls_verify_twice now (s s' : Sensor (D * nat)) ok :
  Sensor.update now s = (Ok ok, s') ->
  Counted.verify_calls s' = (2 + Counted.verify_calls s)%nat.
Proof. exact (update_verifies_twice now s ok s'). Qed.
End VerificationsMore.

(** ** More on the analog sensor *)

Section AnalogMore.
Implicit Types (s : Sensor AnalogSensor) (now v : float64).

Import History.

Lemma ltb_irrefl (x : float64) : F64.ltb x x = false.
Proof.
  unfold F64.ltb, SFltb. destruct (F64.is_nan x) eqn:Hx.
  - destruct x; try discriminate. reflexivity.
  - now rewrite SFcompare_refl.
Qed.

Lemma min_idem (a b : float64) : F64.min (F64.min a b) b = F64.min a b.
Proof.
  unfold F64.min. destruct (F64.ltb b a) eqn:Hba.
  - now rewrite ltb_irrefl.
  - now rewrite Hba.
Qed.

Lemma max_idem (a b : float64) : F64.max (F64.max a b) b = F64.max a b.
Proof.
  unfold F64.max. destruct (F64.ltb a b) eqn:Hab.
  - now rewrite ltb_irrefl.
  - now rewrite Hab.
Qed.

(** A second verification of the same value gives the same verdict and
    leaves the calibration as the first left it. *)
Lemma analog_verify_idem v s s' r d' :
  AnalogSensor._verify v s = (Ok r, d') -> dev s' = d' ->
  AnalogSensor._verify v s' = (Ok r, d').
Proof.
  unfold AnalogSensor._verify. intros Hv Hs'. rewrite Hs'.
  destruct (F64.div v (conversion_factor (dev s))) as [q|e] eqn:Hq;
    [|discriminate].
  destruct (negb (F64.leb (F64.of_Z 0) q && F64.leb q (F64.of_Z 1))) eqn:Hrep.
  - injection Hv as <- <-.
    unfold AnalogSensor.set_output_span, AnalogSensor.set_offset_voltage.
    cbn [conversion_factor offset_voltage output_span adc].
    rewrite Hq, Hrep.
    cbn [conversion_factor offset_voltage output_span adc].
    rewrite min_idem, max_idem. reflexivity.
  - injection Hv as <- <-. now rewrite Hq, Hrep.
Qed.

Lemma gate_inv {D} `{Device D} (s s2 : Sensor D) v ok :
  gate s = (Ok (v, ok), s2) ->
  exists s1 : Sensor D, Sensor._read s = (Ok v, s1) /\
             lift (_verify v) s1 = (Ok ok, s2).
Proof.
  unfold gate. unfold mbind, M_bind, mret, M_ret.
  destruct (Sensor._read s) as [[v'|e] s1]; [|discriminate].
  destruct (lift (_verify v') s1) as [[ok'|e] s2'] eqn:Hv; [|discriminate].
  intros [= -> -> ->]. eauto.
Qed.

Lemma analog_verify_again v (s1 s2 s4 : Sensor AnalogSensor) ok :
  lift (_verify v) s1 = (Ok ok, s2) -> dev s4 = dev s2 ->
  lift (_verify v) s4 = (Ok ok, set_dev (dev s2) s4).
Proof.
  unfold lift. cbn [_verify AnalogSensor.device].
  destruct (AnalogSensor._verify v s1) as [r d'] eqn:Hv.
  intros [= -> <-] Hd. cbn [dev set_dev] in Hd.
  now rewrite (analog_verify_idem v s1 s4 ok d' Hv Hd).
Qed.

(** When reading and the first verification succeed, [update] returns
    that verdict and keeps the calibration it left. *)
Lemma analog_update_ok now s v ok s2 :
  wf s -> gate s = (Ok (v, ok), s2) ->
  fst (Sensor.update now s) = Ok ok /\
  dev (snd (Sensor.update now s)) = dev s2.
Proof.
  intros Hwf Hgate. rewrite update_unfold.
  pose proof (gate_same_engine s) as Hg. rewrite Hgate in *.
  cbn [snd] in Hg.
  destruct (gate_inv _ _ _ _ Hgate) as (s1 & _ & Hv).
  destruct ok.
  - destruct (same_engine_fields _ _ Hg) as (Hd & Hi & Hl & _).
    assert (Hwf2 : wf s2). { unfold wf. rewrite Hd, Hi, Hl. exact Hwf. }
    destruct (store_last_wf v s2 Hwf2) as [-> _].
    erewrite analog_verify_again; [|exact Hv|reflexivity].
    split; reflexivity.
  - erewrite analog_verify_again; [|exact Hv|reflexivity].
    split; reflexivity.
Qed.

(** X8: on an analog sensor, update() returns the verdict of the
    verification that decided whether to store (so True exactly when the
    reading was stored), and leaves the calibration as that one
    verification left it: the second verification changes nothing.  If
    reading or verifying raises, update() raises the same. *)
Theorem analog_update_verdict now s :
  wf s ->
  match gate s with
  | (Ok (v, ok), s2) =>
      fst (Sensor.update now s) = Ok ok /\
      dev (snd (Sensor.update now s)) = dev s2
  | (Raise e, s2) => Sensor.update now s = (Raise e, s2)
  end.
Proof.
  intros Hwf. destruct (gate s) as [[[v ok]|e] s2] eqn:Hgate.
  - exact (analog_update_ok now s v ok s2 Hwf Hgate).
  - rewrite update_unfold, Hgate. reflexivity.
Qed.

Lemma analog_gate_zero s :
  F64.is_zero (output_span (dev s)) = true \/
  F64.is_zero (conversion_factor (dev s)) = true ->
  exists s2,
    gate s = (Raise ZeroDivisionError, s2) /\
    dev s2
    = mkAnalogSensor (snd (read_conversion (adc (dev s))))
        (offset_voltage (dev s)) (output_span (dev s))
        (conversion_factor (dev s)).
Proof.
  intros Hz. unfold gate, Sensor._read.
  unfold mbind, M_bind, mret, M_ret, lift.
  cbn [_raw_read _convert _verify AnalogSensor.device].
  unfold AnalogSensor._raw_read, AnalogSensor._convert, read_conversion.
  cbn [dev set_dev adc offset_voltage output_span conversion_factor].
  unfold F64.div at 1.
  destruct (F64.is_zero (output_span (dev s))) eqn:Hspan.
  - eexists. split; reflexivity.
  - destruct Hz as [Hz|Hz]; [discriminate|].
    unfold AnalogSensor._verify, F64.div.
    cbn [dev set_dev adc offset_voltage output_span conversion_factor].
    rewrite Hz. eexists. split; reflexivity.
Qed.

(** X9: with output_span or conversion_factor equal to zero, update()
    on an analog sensor raises ZeroDivisionError; buffer, cursor,
    timestamp and calibration are unchanged, and one ADC conversion has
    been used. *)
Theorem analog_zero_division now s :
  F64.is_zero (output_span (dev s)) = true \/
  F64.is_zero (conversion_factor (dev s)) = true ->
  fst (Sensor.update now s) = Raise ZeroDivisionError /\
  same_engine s (snd (Sensor.update now s)) /\
  offset_voltage (dev (snd (Sensor.update now s))) = offset_voltage (dev s) /\
  output_span (dev (snd (Sensor.update now s))) = output_span (dev s) /\
  conversion_factor (dev (snd (Sensor.update now s)))
  = conversion_factor (dev s) /\
  conversions_read (adc (dev (snd (Sensor.update now s))))
  = S (conversions_read (adc (dev s))).
Proof.
  intros Hz. destruct (analog_gate_zero s Hz) as (s2 & Hgate & Hdev).
  pose proof (gate_same_engine s) as Hg.
  rewrite update_unfold, Hgate in *. cbn [fst snd] in *.
  split; [reflexivity|]. split; [exact Hg|]. rewrite Hdev. repeat split.
Qed.

Lemma analog_gate_adc s :
  conversion_factor (dev (snd (gate s))) = conversion_factor (dev s) /\
  adc (dev (snd (gate s))) = snd (read_conversion (adc (dev s))).
Proof.
  unfold gate, Sensor._read.
  unfold mbind, M_bind, mret, M_ret, lift.
  cbn [_raw_read _convert _verify AnalogSensor.device].
  unfold AnalogSensor._raw_read, AnalogSensor._convert, read_conversion.
  cbn [dev set_dev adc offset_voltage output_span conversion_factor].
  destruct (F64.div _ (output_span (dev s))) as [value|e];
    [|split; reflexivity].
  unfold AnalogSensor._verify.
  cbn [dev set_dev adc offset_voltage output_span conversion_factor].
  destruct (F64.div value (conversion_factor (dev s))) as [q|e];
    [|split; reflexivity].
  destruct (negb _); split; reflexivity.
Qed.

Lemma store_last_dev {D} v (s : Sensor D) :
  dev (snd (Sensor.__store_last v s)) = dev s.
Proof.
  unfold Sensor.__store_last. destruct (np_index _ _); [|reflexivity].
  cbn [set_data _data_length]. now destruct (decide (_data_length s = 0)).
Qed.

Lemma analog_verify_adc v s :
  conversion_factor (snd (AnalogSensor._verify v s))
  = conversion_factor (dev s) /\
  adc (snd (AnalogSensor._verify v s)) = adc (dev s).
Proof.
  unfold AnalogSensor._verify.
  destruct (F64.div v (conversion_factor (dev s))) as [q|e];
    [|split; reflexivity].
  destruct (negb _); split; reflexivity.
Qed.

Lemma analog_update_adc now s :
  conversion_factor (dev (snd (Sensor.update now s)))
  = conversion_factor (dev s) /\
  adc (dev (snd (Sensor.update now s))) = snd (read_conversion (adc (dev s))).
Proof.
  destruct (analog_gate_adc s) as [Hcf Hadc].
  rewrite update_unfold.
  destruct (gate s) as [[[v ok]|e] s2]; cbn [fst snd] in *;
    [|split; assumption].
  assert (Hlast : forall s4 : Sensor AnalogSensor,
    dev s4 = dev s2 ->
    conversion_factor (dev (snd (lift (_verify v) s4)))
    = conversion_factor (dev s) /\
    adc (dev (snd (lift (_verify v) s4))) = snd (read_conversion (adc (dev s)))).
  { intros s4 Hs4. unfold lift. cbn [_verify AnalogSensor.device].
    destruct (analog_verify_adc v s4) as [H1 H2].
    destruct (AnalogSensor._verify v s4) as [r d']. cbn [fst snd dev set_dev] in *.
    rewrite H1, H2, Hs4. split; assumption. }
  destruct ok; [|now apply Hlast].
  pose proof (store_last_dev v s2) as Hst.
  destruct (Sensor.__store_last v s2) as [[[]|e] s3]; cbn [fst snd] in *.
  - apply Hlast. cbn. exact Hst.
  - rewrite Hst. split; assumption.
Qed.

Lemma analog_reset_dev s : dev (snd (Sensor.reset s)) = dev s.
Proof.
  unfold Sensor.reset, Sensor.data_length, np_zeros.
  unfold mbind, M_bind, gets, lift.
  destruct (decide (_data_length s < 0)); reflexivity.
Qed.

(** X10: whatever calls are made on an analog sensor, its
    conversion_factor stays the same, and the ADC has been asked for
    exactly one conversion per update() (accepted, rejected or raising),
    none by reset() or resizing. *)
Theorem analog_history_conversions cs s :
  conversion_factor (dev (run cs s)) = conversion_factor (dev s) /\
  conversions (adc (dev (run cs s))) = conversions (adc (dev s)) /\
  conversions_read (adc (dev (run cs s)))
  = (conversions_read (adc (dev s)) + Trace.updates cs)%nat.
Proof.
  revert s. induction cs as [|c cs IH]; intros s.
  - cbn. repeat split. unfold Trace.updates. cbn. lia.
  - cbn [run]. destruct (IH (step c s)) as (Hcf & Hcv & Hrd).
    rewrite Hcf, Hcv, Hrd. unfold Trace.updates.
    destruct c as [now| |n]; cbn [step].
    + destruct (analog_update_adc now s) as [-> ->].
      rewrite filter_cons_True by reflexivity. cbn. repeat split. lia.
    + rewrite analog_reset_dev, filter_cons_False by discriminate.
      repeat split.
    + unfold Sensor.data_length_setter, mbind, M_bind, modify.
      rewrite analog_reset_dev, filter_cons_False by discriminate.
      repeat split.
Qed.
End AnalogMore.

(** ** Calibration of the analog sensor *)

Section Calibration.
Implicit Types (s : Sensor AnalogSensor) (d : AnalogSensor) (now v : float64)
  (kwargs : list (string * float64)).

Import History.

Lemma calibrate_fields_adc kwargs d :
  adc (AnalogSensor.calibrate_fields kwargs d) = adc d.
Proof.
  revert d. induction kwargs as [|[f v] kwargs IH]; intros d; [reflexivity|].
  unfold AnalogSensor.calibrate_fields in *. cbn [foldl fst snd].
  rewrite IH. destruct (bool_decide _); [|reflexivity].
  unfold AnalogSensor.setattr. repeat case_decide; reflexivity.
Qed.

(** How the assignments of [calibrate] act on the field called [f],
    read by [p]. *)
Lemma calibrate_fields_get (p : AnalogSensor -> float64) (f : string) :
  f ∈ AnalogSensor._DEFAULT_CALIBRATION_keys ->
  (forall v d, p (AnalogSensor.setattr f v d) = v) ->
  (forall g v d, g <> f -> p (AnalogSensor.setattr g v d) = p d) ->
  forall kwargs d,
    NoDup kwargs.*1 ->
    (forall v, (f, v) ∈ kwargs ->
       p (AnalogSensor.calibrate_fields kwargs d) = v) /\
    (f ∉ kwargs.*1 -> p (AnalogSensor.calibrate_fields kwargs d) = p d).
Proof.
  intros Hf Hset Hother.
  induction kwargs as [|[g w] kwargs IH]; intros d Hnd.
  - split; [intros v Hv; inversion Hv|reflexivity].
  - cbn [fmap list_fmap fst] in Hnd. apply NoDup_cons in Hnd as [Hg Hnd].
    unfold AnalogSensor.calibrate_fields in *. cbn [foldl fst snd].
    split.
    + intros v Hv. apply elem_of_cons in Hv as [[= <- <-]|Hv].
      * destruct (IH (if bool_decide (f ∈ AnalogSensor._DEFAULT_CALIBRATION_keys)
                      then AnalogSensor.setattr f v d else d) Hnd)
          as [_ Hx].
        rewrite Hx by exact Hg.
        rewrite bool_decide_eq_true_2 by exact Hf. apply Hset.
      * now apply IH.
    + intros Hnot. cbn [fmap list_fmap fst] in Hnot.
      apply not_elem_of_cons in Hnot as [Hne Hnot].
      destruct (IH (if bool_decide (g ∈ AnalogSensor._DEFAULT_CALIBRATION_keys)
                    then AnalogSensor.setattr g w d else d) Hnd)
        as [_ Hx].
      rewrite Hx by exact Hnot.
      destruct (bool_decide _); [|reflexivity]. apply Hother. congruence.
Qed.

(** X15: calibrate() with keyword arguments never raises and touches
    neither the buffer nor the ADC: each calibration field that is passed
    takes the value passed, each one that is not keeps its value, and
    keywords that are not calibration fields are ignored. *)
Theorem calibrate_with_arguments kwargs clock s :
  kwargs <> [] -> NoDup kwargs.*1 ->
  exists d',
    AnalogSensor.calibrate kwargs clock s = (Ok tt, set_dev d' s) /\
    adc d' = adc (dev s) /\
    (forall v, ("offset_voltage", v) ∈ kwargs -> offset_voltage d' = v) /\
    (forall v, ("output_span", v) ∈ kwargs -> output_span d' = v) /\
    (forall v, ("conversion_factor", v) ∈ kwargs ->
       conversion_factor d' = v) /\
    ("offset_voltage" ∉ kwargs.*1 ->
       offset_voltage d' = offset_voltage (dev s)) /\
    ("output_span" ∉ kwargs.*1 -> output_span d' = output_span (dev s)) /\
    ("conversion_factor" ∉ kwargs.*1 ->
       conversion_factor d' = conversion_factor (dev s)).
Proof.
  intros Hne Hnd. exists (AnalogSensor.calibrate_fields kwargs (dev s)).
  split; [destruct kwargs; [congruence|reflexivity]|].
  split; [apply calibrate_fields_adc|].
  destruct (calibrate_fields_get offset_voltage "offset_voltage")
    with (kwargs := kwargs) (d := dev s) as [Ho1 Ho2];
    [set_solver|reflexivity| |exact Hnd|].
  { intros g v d Hg. unfold AnalogSensor.setattr.
    repeat case_decide; try reflexivity; congruence. }
  destruct (calibrate_fields_get output_span "output_span")
    with (kwargs := kwargs) (d := dev s) as [Hs1 Hs2];
    [set_solver|reflexivity| |exact Hnd|].
  { intros g v d Hg. unfold AnalogSensor.setattr.
    repeat case_decide; try reflexivity; congruence. }
  destruct (calibrate_fields_get conversion_factor "conversion_factor")
    with (kwargs := kwargs) (d := dev s) as [Hc1 Hc2];
    [set_solver|reflexivity| |exact Hnd|].
  { intros g v d Hg. unfold AnalogSensor.setattr.
    repeat case_decide; try reflexivity; congruence. }
  repeat split; assumption.
Qed.

Lemma filter_nil_Forall {A} (P : A -> Prop) `{forall x, Decision (P x)}
    (l : list A) :
  filter P l = [] <-> Forall (fun x => ~ P x) l.
Proof.
  induction l as [|x l IH]; [split; [constructor|reflexivity]|].
  destruct (decide (P x)) as [Hx|Hx].
  - rewrite filter_cons_True by exact Hx. split; [discriminate|].
    intros HF. apply Forall_cons in HF as [Hn _]. contradiction.
  - rewrite filter_cons_False by exact Hx. rewrite IH, Forall_cons. tauto.
Qed.

Lemma np_roll_Forall {A} (Q : A -> Prop) (l : list A) k :
  Forall Q (np_roll l k) <-> Forall Q l.
Proof.
  unfold np_roll. destruct (decide (Z.of_nat (length l) = 0)); [reflexivity|].
  set (r := Z.to_nat _). rewrite Forall_app.
  rewrite <- (take_drop r l) at 3. rewrite Forall_app. tauto.
Qed.

(** [data] is empty exactly when every slot of the buffer is a zero. *)
Lemma data_empty_iff {D} (s : Sensor D) :
  fst (Sensor.data s) = Ok [] <->
  Forall (fun x => F16.astype_bool x <> true) (_data s).
Proof.
  rewrite data_total. cbn [fst]. rewrite <- (np_roll_Forall _ (_data s)
    (_data_length s - _i s)), <- filter_nil_Forall.
  split; [now intros [= ->]|now intros ->].
Qed.

(** X16: calibrate() without arguments raises IndexError in its first
    turn, from reading the last element of an empty data(), when the
    sensor has no data yet and its first reading is rejected or stored
    as zero. *)
Theorem calibrate_on_empty_buffer clock s v ok s2 :
  wf s -> fst (Sensor.data s) = Ok [] ->
  gate s = (Ok (v, ok), s2) ->
  ok = false \/ F16.astype_bool (F16.of_f64 v) = false ->
  fst (AnalogSensor.calibrate [] clock s) = Raise IndexError.
Proof.
  intros Hwf Hempty Hgate Hstored.
  assert (Hup : fst (Sensor.update (clock O) s) = Ok ok /\
                fst (Sensor.data (snd (Sensor.update (clock O) s))) = Ok []).
  { split; [apply (analog_update_ok (clock O) s v ok s2 Hwf Hgate)|].
    apply data_empty_iff. apply data_empty_iff in Hempty.
    destruct (update_effect (clock O) s Hwf) as [_ Hst].
    unfold accepted in Hst. rewrite Hgate in Hst. cbn [fst] in Hst.
    destruct ok.
    - destruct Hst as [-> _]. destruct Hstored as [?|Hz]; [discriminate|].
      apply Forall_insert; [exact Hempty|]. now rewrite Hz.
    - destruct Hst as [-> _]. exact Hempty. }
  destruct Hup as [Hr Hd].
  unfold AnalogSensor.calibrate.
  change (AnalogSensor.calibrate_loop 50 0 clock)
    with (AnalogSensor.calibrate_turn (clock O);;
          AnalogSensor.calibrate_loop 49 1 clock).
  unfold AnalogSensor.calibrate_turn. unfold mbind, M_bind.
  destruct (Sensor.update (clock O) s) as [r s']. cbn [fst snd] in *.
  rewrite Hr. rewrite data_total in *. cbn [fst] in Hd.
  injection Hd as ->. reflexivity.
Qed.
End Calibration.

(** ** More on the flow sensor *)

Section FlowMore.
Implicit Types (s : Sensor I2CDevice) (now : float64) (bus : I2CDevice).

Import History.

Lemma flow_gate s :
  gate s
  = (match frames (dev s) (frames_read (dev s)) with
     | Some frame =>
         Ok (SFdiv F64.prec F64.emax
               (F64.of_Z (be16_to_native (take 4 frame) - 32768))
               (F64.of_Z 120), true)
     | None => Raise TransportError
     end,
     set_dev (snd (read_device 4 (dev s))) s).
Proof.
  destruct s as [da i n t [fr k w rf wt]].
  unfold gate, Sensor._read, mbind, M_bind, mret, M_ret, lift.
  cbn [_raw_read _convert _verify SFM3200.device].
  unfold SFM3200._raw_read, read_device.
  cbn [dev frames frames_read written refused writes_tried fst snd].
  destruct (fr k); reflexivity.
Qed.

(** X11: an update() of the flow sensor with a well-formed buffer
    attempts one frame read and writes nothing to the bus.  If the read
    returns a frame, update() returns True: the conversion of the frame
    (its first two bytes as a signed integer, minus 32768, over 120) is
    stored as float16 at the cursor, the cursor advances and the
    timestamp is stamped.  If the read fails, update() raises the bus
    error and buffer, cursor and timestamp are untouched. *)
Theorem flow_update_outcome now s :
  wf s ->
  match frames (dev s) (frames_read (dev s)) with
  | Some frame =>
      fst (Sensor.update now s) = Ok true /\
      _data (snd (Sensor.update now s))
      = <[Z.to_nat (_i s) :=
            F16.of_f64
              (SFdiv F64.prec F64.emax
                 (F64.of_Z (be16_to_native (take 4 frame) - 32768))
                 (F64.of_Z 120))]> (_data s) /\
      _i (snd (Sensor.update now s)) = (_i s + 1) mod _data_length s /\
      _data_length (snd (Sensor.update now s)) = _data_length s /\
      _last_timestamp (snd (Sensor.update now s)) = now
  | None =>
      fst (Sensor.update now s) = Raise TransportError /\
      same_engine s (snd (Sensor.update now s))
  end /\
  frames_read (dev (snd (Sensor.update now s))) = S (frames_read (dev s)) /\
  written (dev (snd (Sensor.update now s))) = written (dev s) /\
  writes_tried (dev (snd (Sensor.update now s))) = writes_tried (dev s).
Proof.
  intros Hwf. rewrite update_unfold, flow_gate.
  destruct (frames (dev s) (frames_read (dev s))) as [frame|].
  - assert (Hwf2 : wf (set_dev (snd (read_device 4 (dev s))) s))
      by exact Hwf.
    destruct (store_last_wf
                (SFdiv F64.prec F64.emax
                   (F64.of_Z (be16_to_native (take 4 frame) - 32768))
                   (F64.of_Z 120)) _ Hwf2) as [-> _].
    repeat split.
  - repeat split.
Qed.

Lemma flow_update_bus now s :
  frames (dev (snd (Sensor.update now s))) = frames (dev s) /\
  refused (dev (snd (Sensor.update now s))) = refused (dev s) /\
  frames_read (dev (snd (Sensor.update now s))) = S (frames_read (dev s)) /\
  written (dev (snd (Sensor.update now s))) = written (dev s) /\
  writes_tried (dev (snd (Sensor.update now s))) = writes_tried (dev s).
Proof.
  rewrite update_unfold, flow_gate.
  destruct (frames (dev s) (frames_read (dev s))) as [frame|];
    [|repeat split].
  pose proof (store_last_dev
    (SFdiv F64.prec F64.emax
       (F64.of_Z (be16_to_native (take 4 frame) - 32768))
       (F64.of_Z 120))
    (set_dev (snd (read_device 4 (dev s))) s)) as Hst.
  destruct (Sensor.__store_last _ _) as [[[]|e] s3]; cbn [fst snd] in *.
  - cbn. rewrite Hst. repeat split.
  - rewrite Hst. repeat split.
Qed.

Lemma flow_reset_bus s :
  0 <= _data_length s ->
  dev (snd (Sensor.reset s)) = snd (write_device 8192 (dev s)).
Proof.
  intros HC. unfold Sensor.reset, Sensor.data_length, np_zeros.
  unfold mbind, M_bind, gets, lift.
  destruct (decide (_data_length s < 0)); [lia|].
  cbn [_reset_device SFM3200.device]. unfold SFM3200._reset_device.
  cbn [dev set_i set_data].
  destruct (write_device 8192 (dev s)) as [[[]|e] b]; reflexivity.
Qed.

Lemma write_device_bus c bus :
  frames (snd (write_device c bus)) = frames bus /\
  refused (snd (write_device c bus)) = refused bus /\
  frames_read (snd (write_device c bus)) = frames_read bus /\
  writes_tried (snd (write_device c bus)) = S (writes_tried bus) /\
  written (snd (write_device c bus))
  = written bus
    ++ replicate (if refused bus (writes_tried bus) then 0 else 1) c.
Proof.
  unfold write_device. destruct (refused bus (writes_tried bus)); cbn.
  - rewrite app_nil_r. repeat split.
  - repeat split.
Qed.

Lemma calls_update now cs :
  Trace.updates (DoUpdate now :: cs) = S (Trace.updates cs) /\
  Trace.clears (DoUpdate now :: cs) = Trace.clears cs.
Proof.
  unfold Trace.updates, Trace.clears.
  rewrite filter_cons_True by reflexivity.
  rewrite filter_cons_False by (cbn; congruence). split; reflexivity.
Qed.

Lemma calls_clear c cs :
  Trace.is_update c = false ->
  Trace.updates (c :: cs) = Trace.updates cs /\
  Trace.clears (c :: cs) = S (Trace.clears cs).
Proof.
  intros Hc. unfold Trace.updates, Trace.clears.
  rewrite filter_cons_False by (rewrite Hc; discriminate).
  rewrite filter_cons_True by exact Hc. split; reflexivity.
Qed.

Lemma flow_step_bus c s :
  valid_call c -> wf s ->
  frames (dev (step c s)) = frames (dev s) /\
  refused (dev (step c s)) = refused (dev s) /\
  frames_read (dev (step c s))
  = (if Trace.is_update c then S (frames_read (dev s))
     else frames_read (dev s)) /\
  writes_tried (dev (step c s))
  = (if Trace.is_update c then writes_tried (dev s)
     else S (writes_tried (dev s))) /\
  written (dev (step c s))
  = written (dev s)
    ++ replicate
         (if Trace.is_update c then 0
          else if refused (dev s) (writes_tried (dev s)) then 0 else 1)
         8192.
Proof.
  intros Hc Hwf.
  destruct c as [now| |n]; cbn [step valid_call Trace.is_update] in *.
  - destruct (flow_update_bus now s) as (-> & -> & -> & -> & ->).
    cbn. rewrite app_nil_r. repeat split.
  - rewrite flow_reset_bus by (destruct Hwf; lia).
    exact (write_device_bus 8192 (dev s)).
  - unfold Sensor.data_length_setter, mbind, M_bind, modify.
    rewrite flow_reset_bus by (cbn; lia). cbn [dev set_data_length].
    exact (write_device_bus 8192 (dev s)).
Qed.

Lemma flow_history_bus cs s :
  Forall valid_call cs -> wf s ->
  frames (dev (run cs s)) = frames (dev s) /\
  refused (dev (run cs s)) = refused (dev s) /\
  frames_read (dev (run cs s))
  = (frames_read (dev s) + Trace.updates cs)%nat /\
  writes_tried (dev (run cs s))
  = (writes_tried (dev s) + Trace.clears cs)%nat /\
  written (dev (run cs s))
  = written (dev s)
    ++ replicate
         (Trace.sent (refused (dev s)) (writes_tried (dev s))
            (Trace.clears cs)) 8192.
Proof.
  intros Hcs. revert s. induction Hcs as [|c cs Hc _ IH]; intros s Hwf.
  - cbn. rewrite app_nil_r. unfold Trace.updates, Trace.clears. cbn.
    repeat split; lia.
  - cbn [run].
    destruct (IH (step c s) (step_wf c s Hc Hwf))
      as (Hf & Hrf & Hr & Hwt & Hw).
    destruct (flow_step_bus c s Hc Hwf) as (Gf & Grf & Gr & Gwt & Gw).
    rewrite Hf, Hrf, Hr, Hwt, Hw, Gf, Grf, Gr, Gwt, Gw.
    destruct (Trace.is_update c) eqn:Hu.
    + destruct c as [now| |n]; try discriminate.
      destruct (calls_update now cs) as [-> ->].
      cbn [replicate]. rewrite app_nil_r. repeat split; lia.
    + destruct (calls_clear c cs Hu) as [-> ->].
      cbn [Trace.sent]. rewrite <- app_assoc, <- replicate_add.
      repeat split; lia.
Qed.

(** What the constructor leaves behind, by what the bus does with the
    two commands. *)
Lemma flow_init_state bus :
  SFM3200.__init__ bus
  = if refused bus (writes_tried bus)
    then (Raise TransportError,
          cleared Sensor._DEFAULT_STORED_OBSERVATIONS Sensor.never
            (snd (write_device 8192 bus)))
    else if refused bus (S (writes_tried bus))
    then (Raise TransportError,
          cleared Sensor._DEFAULT_STORED_OBSERVATIONS Sensor.never
            (snd (write_device 4096 (snd (write_device 8192 bus)))))
    else (Ok tt,
          cleared Sensor._DEFAULT_STORED_OBSERVATIONS Sensor.never
            (snd (write_device 4096 (snd (write_device 8192 bus))))).
Proof.
  destruct bus as [fr k w rf wt]. cbv.
  destruct (rf wt); [reflexivity|].
  destruct (rf (S wt)); reflexivity.
Qed.

Lemma no_update_no_stamp {D} `{Device D} cs (s : Sensor D) acc :
  Trace.updates cs = O -> last_stamp cs s acc = acc.
Proof.
  revert s acc. induction cs as [|c cs IH]; intros s acc Hu; [reflexivity|].
  unfold Trace.updates in *.
  destruct c as [now| |n]; cbn [last_stamp].
  - rewrite filter_cons_True in Hu by reflexivity. discriminate.
  - rewrite filter_cons_False in Hu by discriminate. now apply IH.
  - rewrite filter_cons_False in Hu by discriminate. now apply IH.
Qed.

(** X12: constructing the flow sensor sends the soft reset command
    0x2000 and then the start command 0x1000.  If the bus refuses the
    first, the constructor raises the bus error with nothing sent; if
    it refuses the second, it raises with only 0x2000 sent.  Otherwise
    it returns, and then: get() raises RuntimeWarning as long as no
    update() has been called; every reset() or resizing attempts one
    more write of 0x2000 and nothing else is ever written; and exactly
    one frame read is attempted per update(). *)
Theorem flow_bus_traffic bus cs :
  Forall valid_call cs ->
  if refused bus (writes_tried bus)
  then fst (SFM3200.__init__ bus) = Raise TransportError /\
       written (dev (snd (SFM3200.__init__ bus))) = written bus
  else if refused bus (S (writes_tried bus))
  then fst (SFM3200.__init__ bus) = Raise TransportError /\
       written (dev (snd (SFM3200.__init__ bus))) = written bus ++ [8192]
  else
    fst (SFM3200.__init__ bus) = Ok tt /\
    (Trace.updates cs = O ->
     Sensor.get (run cs (snd (SFM3200.__init__ bus)))
     = (Raise RuntimeWarning, run cs (snd (SFM3200.__init__ bus)))) /\
    written (dev (run cs (snd (SFM3200.__init__ bus))))
    = written bus ++ [8192; 4096]
      ++ replicate
           (Trace.sent (refused bus) (2 + writes_tried bus)
              (Trace.clears cs)) 8192 /\
    writes_tried (dev (run cs (snd (SFM3200.__init__ bus))))
    = (2 + writes_tried bus + Trace.clears cs)%nat /\
    frames_read (dev (run cs (snd (SFM3200.__init__ bus))))
    = (frames_read bus + Trace.updates cs)%nat.
Proof.
  intros Hcs. rewrite flow_init_state.
  destruct (write_device_bus 8192 bus) as (Hf1 & Hrf1 & Hr1 & Hwt1 & Hw1).
  destruct (write_device_bus 4096 (snd (write_device 8192 bus)))
    as (Hf2 & Hrf2 & Hr2 & Hwt2 & Hw2).
  rewrite Hrf1, Hwt1, Hw1 in Hw2.
  destruct (refused bus (writes_tried bus)) eqn:R1.
  { cbn [fst snd cleared dev]. rewrite Hw1, app_nil_r. split; reflexivity. }
  destruct (refused bus (S (writes_tried bus))) eqn:R2.
  { cbn [fst snd cleared dev]. rewrite Hw2. cbn. rewrite app_nil_r.
    split; reflexivity. }
  cbn [fst snd].
  set (s0 := cleared Sensor._DEFAULT_STORED_OBSERVATIONS Sensor.never
               (snd (write_device 4096 (snd (write_device 8192 bus))))).
  assert (Hwf : wf s0).
  { unfold wf, s0, cleared. cbn [_data _i _data_length].
    rewrite length_replicate. unfold Sensor._DEFAULT_STORED_OBSERVATIONS.
    lia. }
  destruct (flow_history_bus cs s0 Hcs Hwf) as (_ & _ & Hr & Hwt & Hw).
  split; [reflexivity|]. split; [|split; [|split]].
  - intros Hu. apply get_never.
    pose proof (run_stamped cs s0 None Hcs Hwf eq_refl) as Hst.
    rewrite (no_update_no_stamp cs s0 None Hu) in Hst. exact Hst.
  - rewrite Hw. unfold s0. cbn [cleared dev].
    rewrite Hw2, Hrf2, Hrf1, Hwt2, Hwt1. cbn [replicate].
    rewrite <- !app_assoc. reflexivity.
  - rewrite Hwt. unfold s0. cbn [cleared dev]. rewrite Hwt2, Hwt1. lia.
  - rewrite Hr. unfold s0. cbn [cleared dev]. rewrite Hr2, Hr1. reflexivity.
Qed.
End FlowMore.

(** ** More on the simulated sensor *)

Section SimMore.
Implicit Types (s : Sensor SimSensor) (now : float64).

Import History.

Lemma sim_read s :
  Trace.readable s ->
  exists v,
    Sensor._read s
    = (Ok v, set_dev (mkSimSensor (low (dev s)) (high (dev s)) (rng (dev s))
                        (S (rng_drawn (dev s)))) s).
Proof.
  intros [Hwf Hts]. unfold Sensor._read. unfold mbind, M_bind, lift.
  cbn [_raw_read _convert SimSensor.device].
  unfold SimSensor._raw_read, SimSensor._convert, random.
  destruct (decide (_i s = 0)) as [Hi|Hi].
  - eexists. reflexivity.
  - destruct (get_slot s Hwf (Hts Hi)) as (x & _ & ->).
    cbn [high]. eexists. reflexivity.
Qed.

Lemma sim_verify v s :
  exists ok,
    lift (_verify v) s
    = (Ok ok, set_dev (mkSimSensor (low (dev s)) (high (dev s)) (rng (dev s))
                         (S (rng_drawn (dev s)))) s).
Proof.
  unfold lift. cbn [_verify SimSensor.device].
  unfold SimSensor._verify, random.
  destruct (F64.ltb _ _); eexists; reflexivity.
Qed.

Lemma sim_update now s :
  Trace.readable s ->
  exists b s',
    Sensor.update now s = (Ok b, s') /\
    low (dev s') = low (dev s) /\ high (dev s') = high (dev s) /\
    rng (dev s') = rng (dev s) /\
    rng_drawn (dev s') = (rng_drawn (dev s) + 3)%nat.
Proof.
  intros Hok. unfold Sensor.update. unfold mbind, M_bind.
  destruct (sim_read s Hok) as (v & ->).
  destruct (sim_verify v (set_dev
    (mkSimSensor (low (dev s)) (high (dev s)) (rng (dev s))
       (S (rng_drawn (dev s)))) s)) as (ok & ->).
  cbn [dev set_dev low high rng rng_drawn].
  destruct ok.
  - destruct Hok as [Hwf _].
    match goal with
    | |- context [Sensor.__store_last v ?s2] =>
        destruct (store_last_wf v s2 Hwf) as [-> _]
    end.
    unfold modify.
    match goal with
    | |- context [lift (_verify v) ?s4] =>
        destruct (sim_verify v s4) as (b & ->)
    end.
    do 2 eexists. split; [reflexivity|]. cbn. repeat split. lia.
  - unfold mret, M_ret.
    match goal with
    | |- context [lift (_verify v) ?s4] =>
        destruct (sim_verify v s4) as (b & ->)
    end.
    do 2 eexists. split; [reflexivity|]. cbn. repeat split. lia.
Qed.

Lemma sim_step_ok c s :
  valid_call c -> Trace.readable s -> Trace.readable (step c s).
Proof.
  intros Hc [Hwf Hts]. split; [now apply step_wf|].
  destruct c as [now| |n]; cbn [step valid_call] in *.
  - destruct (update_effect now s Hwf) as [_ Hst].
    destruct (accepted s).
    + destruct Hst as (_ & _ & ->). intros _. exact Hc.
    + destruct Hst as (_ & -> & ->). exact Hts.
  - destruct (reset_fields s) as (_ & Hi & _); [destruct Hwf; lia|].
    intros Hne. contradiction.
  - destruct (data_length_setter_fields n s) as (_ & Hi & _); [lia|].
    intros Hne. contradiction.
Qed.

Lemma sim_reset_dev s : dev (snd (Sensor.reset s)) = dev s.
Proof.
  unfold Sensor.reset, Sensor.data_length, np_zeros.
  unfold mbind, M_bind, gets, lift.
  destruct (decide (_data_length s < 0)); reflexivity.
Qed.

Lemma sim_history cs s :
  Forall valid_call cs -> Trace.readable s ->
  Trace.readable (run cs s) /\
  low (dev (run cs s)) = low (dev s) /\
  high (dev (run cs s)) = high (dev s) /\
  rng (dev (run cs s)) = rng (dev s) /\
  rng_drawn (dev (run cs s)) = (rng_drawn (dev s) + 3 * Trace.updates cs)%nat.
Proof.
  intros Hcs. revert s. induction Hcs as [|c cs Hc _ IH]; intros s Hok.
  - cbn. split; [exact Hok|]. repeat split. unfold Trace.updates. cbn. lia.
  - cbn [run].
    destruct (IH (step c s) (sim_step_ok c s Hc Hok))
      as (Hok' & Hlo & Hhi & Hrng & Hdr).
    split; [exact Hok'|]. rewrite Hlo, Hhi, Hrng, Hdr. unfold Trace.updates.
    destruct c as [now| |n]; cbn [step].
    + destruct (sim_update now s Hok) as (b & s' & Hu & Hl & Hh & Hr & Hd).
      rewrite Hu. cbn [snd]. rewrite Hl, Hh, Hr, Hd.
      rewrite filter_cons_True by reflexivity. cbn [length].
      repeat split. lia.
    + rewrite sim_reset_dev, filter_cons_False by discriminate. repeat split.
    + unfold Sensor.data_length_setter, mbind, M_bind, modify.
      rewrite sim_reset_dev, filter_cons_False by discriminate. repeat split.
Qed.

(** X13: on a simulated sensor no update() ever raises, whatever the
    history of updates, resets and resizings before it (the last value
    is always readable when the cursor is not at the start); each
    update() draws exactly three random numbers, and low and high never
    change. *)
Theorem sim_updates_never_raise lo hi g cs now :
  Forall valid_call cs ->
  (exists b,
     fst (Sensor.update now (run cs (SimSensor.__init__ lo hi g))) = Ok b) /\
  rng_drawn (dev (run cs (SimSensor.__init__ lo hi g)))
  = (3 * Trace.updates cs)%nat /\
  low (dev (run cs (SimSensor.__init__ lo hi g))) = lo /\
  high (dev (run cs (SimSensor.__init__ lo hi g))) = hi.
Proof.
  intros Hcs.
  assert (Hok : Trace.readable (SimSensor.__init__ lo hi g)).
  { split; [apply init_wf|]. intros Hi. now contradiction Hi. }
  destruct (sim_history cs _ Hcs Hok) as (Hok' & Hlo & Hhi & _ & Hdr).
  split.
  - destruct (sim_update now _ Hok') as (b & s' & -> & _). now exists b.
  - rewrite Hdr, Hlo, Hhi. repeat split.
Qed.
End SimMore.

(** ** Construction of the analog sensor *)

Section ConstructionFacts.
Context {V : Type}.
Variable of_int : Z -> V.
Variable USER_CONFIGURABLE_FIELDS : list string.
Variable unpack : string -> V.
Variable existing : string -> bool.

Local Abbreviation allowed :=
  (AnalogSensor.allowed of_int USER_CONFIGURABLE_FIELDS).
Local Abbreviation hasattr := (AnalogSensor.hasattr (V := V) existing).

Implicit Types (kwargs : list (string * V)) (attrs a : gmap string V)
  (f : string).

Lemma check_fold kwargs a (n : nat) :
  foldl (fun ar kv =>
           if bool_decide (kv.1 ∈ allowed)
           then (<[kv.1 := kv.2]> ar.1, S ar.2) else ar)
        (a, n) kwargs
  = (foldl (fun a kv => <[kv.1 := kv.2]> a) a
       (filter (fun kv => kv.1 ∈ allowed) kwargs),
     (n + length (filter (fun kv => kv.1 ∈ allowed) kwargs))%nat).
Proof.
  revert a n. induction kwargs as [|kv kwargs IH]; intros a n.
  - cbn. f_equal. lia.
  - cbn [foldl]. destruct (decide (kv.1 ∈ allowed)) as [Hin|Hout].
    + rewrite bool_decide_eq_true_2, filter_cons_True by exact Hin.
      rewrite IH. cbn [foldl length fst snd]. f_equal. lia.
    + rewrite bool_decide_eq_false_2, filter_cons_False by exact Hout.
      apply IH.
Qed.

Lemma filter_all_length {A} (P : A -> Prop) `{forall x, Decision (P x)}
    (l : list A) :
  length (filter P l) = length l <-> Forall P l.
Proof.
  induction l as [|x l IH]; [split; [constructor|reflexivity]|].
  pose proof (length_filter P l) as Hle.
  destruct (decide (P x)) as [Hx|Hx].
  - rewrite filter_cons_True by exact Hx. cbn [length].
    rewrite Forall_cons. split; [intros [= Hl]; tauto|].
    intros [_ Hl]. f_equal. tauto.
  - rewrite filter_cons_False by exact Hx. cbn [length].
    rewrite Forall_cons. split; [lia|tauto].
Qed.

Lemma insert_fold_lookup kwargs : forall a f,
  NoDup kwargs.*1 ->
  (forall v, (f, v) ∈ kwargs ->
     foldl (fun a kv => <[kv.1 := kv.2]> a) a kwargs !! f = Some v) /\
  (f ∉ kwargs.*1 ->
     foldl (fun a kv => <[kv.1 := kv.2]> a) a kwargs !! f = a !! f).
Proof.
  induction kwargs as [|[g w] kwargs IH]; intros a f Hnd.
  - split; [intros v Hv; inversion Hv|reflexivity].
  - cbn [fmap list_fmap fst] in Hnd. apply NoDup_cons in Hnd as [Hg Hnd].
    cbn [foldl fst snd]. split.
    + intros v Hv. apply elem_of_cons in Hv as [[= <- <-]|Hv].
      * destruct (IH (<[f := v]> a) f Hnd) as [_ Hx].
        rewrite Hx by exact Hg. apply lookup_insert_eq.
      * now apply IH.
    + intros Hnot. cbn [fmap list_fmap fst] in Hnot.
      apply not_elem_of_cons in Hnot as [Hne Hnot].
      destruct (IH (<[g := w]> a) f Hnd) as [_ Hx].
      rewrite Hx by exact Hnot. now apply lookup_insert_ne.
Qed.

(** Filling in: an attribute that is there is kept, one that is missing
    takes the value of the first entry of the list for it. *)
Lemma fill_fold_lookup {X} (k : X -> string) (w : X -> V) (l : list X) :
  Forall (fun x => existing (k x) = false) l ->
  forall a f,
    foldl (fun a x => if hasattr a (k x) then a else <[k x := w x]> a) a l !! f
    = match a !! f with
      | Some v => Some v
      | None => w <$> head (filter (fun x => k x = f) l)
      end.
Proof.
  induction 1 as [|x l Hx _ IH]; intros a f.
  - cbn. now destruct (a !! f).
  - cbn [foldl]. rewrite IH. unfold AnalogSensor.hasattr. rewrite Hx.
    cbn [orb]. destruct (decide (k x = f)) as [<-|Hne].
    + rewrite filter_cons_True by reflexivity. cbn [head fmap option_fmap option_map].
      destruct (a !! k x) as [v|] eqn:Ha.
      * rewrite bool_decide_eq_true_2 by eauto. now rewrite Ha.
      * rewrite bool_decide_eq_false_2 by (intros [? ?]; congruence).
        now rewrite lookup_insert_eq.
    + rewrite filter_cons_False by exact Hne.
      destruct (bool_decide _); [reflexivity|].
      now rewrite lookup_insert_ne.
Qed.

Lemma filter_all {A} (P : A -> Prop) `{forall x, Decision (P x)} (l : list A) :
  Forall P l -> filter P l = l.
Proof.
  induction 1 as [|x l Hx _ IH]; [reflexivity|].
  rewrite filter_cons_True by exact Hx. now rewrite IH.
Qed.

Lemma head_filter_eq (l : list string) f :
  head (filter (fun x => x = f) l) = if decide (f ∈ l) then Some f else None.
Proof.
  induction l as [|x l IH]; [reflexivity|].
  destruct (decide (x = f)) as [->|Hne].
  - rewrite filter_cons_True by reflexivity. cbn [head].
    rewrite decide_True by apply list_elem_of_here. reflexivity.
  - rewrite filter_cons_False by exact Hne. rewrite IH.
    destruct (decide (f ∈ l)) as [Hin|Hout].
    + rewrite decide_True by now apply list_elem_of_further. reflexivity.
    + rewrite decide_False; [reflexivity|].
      intros Hin. apply elem_of_cons in Hin as [->|Hin]; contradiction.
Qed.

Lemma head_filter_default f :
  head (filter (fun x => x.1 = f) (AnalogSensor._DEFAULT_CALIBRATION of_int))
  = (fun v => (f, v)) <$>
    (list_to_map (AnalogSensor._DEFAULT_CALIBRATION of_int)
       : gmap string V) !! f.
Proof.
  unfold AnalogSensor._DEFAULT_CALIBRATION. cbn [list_to_map foldr].
  destruct (decide ("offset_voltage" = f)) as [<-|H1].
  { rewrite filter_cons_True by reflexivity. cbn [head fst].
    now rewrite lookup_insert_eq. }
  rewrite filter_cons_False by exact H1. rewrite lookup_insert_ne by exact H1.
  destruct (decide ("output_span" = f)) as [<-|H2].
  { rewrite filter_cons_True by reflexivity. cbn [head fst].
    now rewrite lookup_insert_eq. }
  rewrite filter_cons_False by exact H2. rewrite lookup_insert_ne by exact H2.
  destruct (decide ("conversion_factor" = f)) as [<-|H3].
  { rewrite filter_cons_True by reflexivity. cbn [head fst].
    now rewrite lookup_insert_eq. }
  rewrite filter_cons_False by exact H3. rewrite lookup_insert_ne by exact H3.
  reflexivity.
Qed.

(** What [_fill_attr] leaves in a field. *)
Lemma fill_attr_lookup a f :
  (forall g, g ∈ allowed -> existing g = false) ->
  AnalogSensor._fill_attr of_int USER_CONFIGURABLE_FIELDS unpack existing a !! f
  = match a !! f with
    | Some v => Some v
    | None =>
        if decide (f ∈ USER_CONFIGURABLE_FIELDS) then Some (unpack f)
        else (list_to_map (AnalogSensor._DEFAULT_CALIBRATION of_int)
                : gmap string V) !! f
    end.
Proof.
  intros Hfresh. unfold AnalogSensor._fill_attr.
  rewrite (fill_fold_lookup fst snd).
  2:{ apply Forall_forall. intros x Hx. apply Hfresh.
      unfold AnalogSensor.allowed. apply elem_of_app. right.
      now apply list_elem_of_fmap_2. }
  rewrite (fill_fold_lookup (fun x => x) unpack).
  2:{ apply Forall_forall. intros x Hx. apply Hfresh.
      unfold AnalogSensor.allowed. apply elem_of_app. now left. }
  destruct (a !! f); [reflexivity|].
  rewrite head_filter_eq. destruct (decide (f ∈ USER_CONFIGURABLE_FIELDS));
    [reflexivity|].
  cbn [fmap option_fmap option_map]. rewrite head_filter_default.
  now destruct (_ !! f).
Qed.

(** X14: the outcome of constructing an analog sensor from keyword
    arguments, whatever their order.  It raises TypeError when MUX is
    not passed, and when a keyword other than pig is neither a
    configurable field of the ADC nor a calibration field.  Otherwise
    every field that was passed has the value passed (pig is dropped),
    every other configurable field has the value the ADC currently
    holds, every other calibration field has its default, and no other
    field is set. *)
Theorem init_kwargs_outcome kwargs :
  NoDup kwargs.*1 ->
  (forall g, g ∈ allowed -> existing g = false) ->
  match AnalogSensor.__init__kwargs of_int USER_CONFIGURABLE_FIELDS unpack
          existing kwargs with
  | inl AnalogSensor.MUX_not_specified => "MUX" ∉ kwargs.*1
  | inl AnalogSensor.unknown_fields =>
      "MUX" ∈ kwargs.*1 /\
      exists f, f ∈ kwargs.*1 /\ f <> "pig" /\ f ∉ allowed
  | inr attrs =>
      "MUX" ∈ kwargs.*1 /\
      (forall f, f ∈ kwargs.*1 -> f = "pig" \/ f ∈ allowed) /\
      (forall f v, (f, v) ∈ kwargs -> f <> "pig" -> attrs !! f = Some v) /\
      (forall f, f ∈ USER_CONFIGURABLE_FIELDS ->
         f ∉ kwargs.*1 \/ f = "pig" -> attrs !! f = Some (unpack f)) /\
      (forall f v, (f, v) ∈ AnalogSensor._DEFAULT_CALIBRATION of_int ->
         f ∉ USER_CONFIGURABLE_FIELDS -> f ∉ kwargs.*1 ->
         attrs !! f = Some v) /\
      (forall f, f ∉ allowed -> attrs !! f = None)
  end.
Proof.
  intros Hnd Hfresh. unfold AnalogSensor.__init__kwargs.
  destruct (decide ("MUX" ∈ kwargs.*1)) as [Hmux|Hmux];
    [|now rewrite bool_decide_eq_false_2 by exact Hmux].
  rewrite bool_decide_eq_true_2 by exact Hmux.
  set (kw := filter (fun kv => kv.1 <> "pig") kwargs).
  assert (Hkw : forall f v, (f, v) ∈ kw <-> (f, v) ∈ kwargs /\ f <> "pig").
  { intros f v. unfold kw. rewrite list_elem_of_filter. cbn. tauto. }
  assert (Hkeys : forall f, f ∈ kw.*1 <-> f ∈ kwargs.*1 /\ f <> "pig").
  { intros f. rewrite !list_elem_of_fmap. split.
    - intros ([g v] & -> & Hin). apply Hkw in Hin as [Hin Hne].
      split; [exists (g, v); split; [reflexivity|exact Hin]|exact Hne].
    - intros [([g v] & -> & Hin) Hne]. exists (g, v). split; [reflexivity|].
      now apply Hkw. }
  assert (Hndkw : NoDup kw.*1).
  { apply (sublist_NoDup _ kwargs.*1); [exact Hnd|].
    apply fmap_sublist, sublist_filter. }
  unfold AnalogSensor._check_and_set_attr. rewrite check_fold.
  cbn [Nat.add].
  destruct (decide (length (filter (fun kv => kv.1 ∈ allowed) kw) <> length kw))
    as [Hbad|Hgood].
  - split; [exact Hmux|].
    assert (Hnot : ~ Forall (fun kv => kv.1 ∈ allowed) kw).
    { intros HF. apply Hbad. now apply filter_all_length. }
    apply not_Forall_Exists in Hnot; [|intros x; apply _].
    apply Exists_exists in Hnot as ([f v] & Hin & Hout).
    apply Hkw in Hin as [Hin Hne]. exists f. split; [|split; assumption].
    now apply (list_elem_of_fmap_2 fst kwargs (f, v)).
  - assert (Hall : Forall (fun kv => kv.1 ∈ allowed) kw).
    { apply (proj1 (filter_all_length _ kw)).
      destruct (decide (length (filter (fun kv => kv.1 ∈ allowed) kw)
                        = length kw)); [assumption|contradiction]. }
    rewrite (filter_all _ kw Hall).
    assert (Hallowed : forall f, f ∈ kw.*1 -> f ∈ allowed).
    { intros f Hf. apply list_elem_of_fmap in Hf as ([g v] & -> & Hin).
      rewrite Forall_forall in Hall. exact (Hall _ Hin). }
    split; [exact Hmux|]. split; [|split; [|split; [|split]]].
    + intros f Hf. destruct (decide (f = "pig")); [now left|right].
      apply Hallowed, Hkeys. now split.
    + intros f v Hin Hne. rewrite fill_attr_lookup by exact Hfresh.
      destruct (insert_fold_lookup kw ∅ f Hndkw) as [Hset _].
      rewrite (Hset v) by now apply Hkw. reflexivity.
    + intros f Hf Hnot. rewrite fill_attr_lookup by exact Hfresh.
      destruct (insert_fold_lookup kw ∅ f Hndkw) as [_ Hkeep].
      rewrite Hkeep by (rewrite Hkeys; tauto).
      rewrite lookup_empty. now rewrite decide_True by exact Hf.
    + intros f v Hin Hucf Hnot. rewrite fill_attr_lookup by exact Hfresh.
      destruct (insert_fold_lookup kw ∅ f Hndkw) as [_ Hkeep].
      rewrite Hkeep by (rewrite Hkeys; tauto).
      rewrite lookup_empty. rewrite decide_False by exact Hucf.
      apply elem_of_list_to_map_1; [|exact Hin].
      unfold AnalogSensor._DEFAULT_CALIBRATION. cbn [fmap list_fmap fst].
      apply (bool_decide_unpack _). vm_compute. exact I.
    + intros f Hout. rewrite fill_attr_lookup by exact Hfresh.
      destruct (insert_fold_lookup kw ∅ f Hndkw) as [_ Hkeep].
      rewrite Hkeep by (intros Hin; apply Hout, Hallowed, Hin).
      rewrite lookup_empty.
      rewrite decide_False
        by (intros Hin; apply Hout, elem_of_app; now left).
      apply not_elem_of_list_to_map_1. intros Hin. apply Hout.
      apply elem_of_app. now right.
Qed.
End ConstructionFacts.

(** ** More on alarms *)

Section AlarmMore.
Context {AlarmType AlarmSeverity : Type}.

Local Abbreviation Alarm := (@Alarm.Alarm AlarmType AlarmSeverity).

Implicit Types (a : Alarm) (t : float64) (ts : list float64).

Lemma deactivate_frame a t :
  Alarm.id (snd (Alarm.deactivate t a)) = Alarm.id a /\
  Alarm.severity (snd (Alarm.deactivate t a)) = Alarm.severity a /\
  Alarm.alarm_type (snd (Alarm.deactivate t a)) = Alarm.alarm_type a /\
  Alarm.start_time (snd (Alarm.deactivate t a)) = Alarm.start_time a /\
  Alarm.value (snd (Alarm.deactivate t a)) = Alarm.value a /\
  Alarm.message (snd (Alarm.deactivate t a)) = Alarm.message a /\
  Alarm.latch (snd (Alarm.deactivate t a)) = Alarm.latch a /\
  Alarm.persistent (snd (Alarm.deactivate t a)) = Alarm.persistent a /\
  Alarm.active (snd (Alarm.deactivate t a)) = false.
Proof.
  unfold Alarm.deactivate. destruct (Alarm.active a) eqn:Ha; cbn;
    repeat split; assumption.
Qed.

(** X17: deactivate(), called any number of times, changes nothing of
    an alarm but active and end_time: id, severity, alarm_type,
    start_time, value, message, latch and persistent stay as
    constructed; and after the first call the alarm is inactive for
    good. *)
Theorem deactivations_frame a ts :
  Alarm.id (Alarm.deactivations ts a) = Alarm.id a /\
  Alarm.severity (Alarm.deactivations ts a) = Alarm.severity a /\
  Alarm.alarm_type (Alarm.deactivations ts a) = Alarm.alarm_type a /\
  Alarm.start_time (Alarm.deactivations ts a) = Alarm.start_time a /\
  Alarm.value (Alarm.deactivations ts a) = Alarm.value a /\
  Alarm.message (Alarm.deactivations ts a) = Alarm.message a /\
  Alarm.latch (Alarm.deactivations ts a) = Alarm.latch a /\
  Alarm.persistent (Alarm.deactivations ts a) = Alarm.persistent a /\
  Alarm.active (Alarm.deactivations ts a)
  = (if ts is [] then Alarm.active a else false).
Proof.
  revert a. induction ts as [|t ts IH]; intros a; [repeat split|].
  cbn [Alarm.deactivations].
  destruct (IH (snd (Alarm.deactivate t a)))
    as (H1 & H2 & H3 & H4 & H5 & H6 & H7 & H8 & H9).
  destruct (deactivate_frame a t)
    as (G1 & G2 & G3 & G4 & G5 & G6 & G7 & G8 & G9).
  rewrite H1, H2, H3, H4, H5, H6, H7, H8, H9, G1, G2, G3, G4, G5, G6, G7, G8.
  repeat split. destruct ts; [exact G9|reflexivity].
Qed.
End AlarmMore.

(** ** The properties at concrete sensors *)

Section Instances.
Import Examples History.

Lemma data_of_nonzero_pushes_witness :
  1 <= 4 /\
  Forall (fun v => F16.astype_bool (F16.of_f64 v) = true)
    (F64.of_Z <$> [1; 2; 3; 4; 5; 6]) /\
  fst (Sensor.data
         (pushes (F64.of_Z <$> [1; 2; 3; 4; 5; 6])
            (cleared 4 Sensor.never tt)))
  = Ok [f16 3 1; f16 4 1; f16 5 1; f16 6 1].
Proof.
  assert (Hnz : Forall (fun v => F16.astype_bool (F16.of_f64 v) = true)
                  (F64.of_Z <$> [1; 2; 3; 4; 5; 6])).
  { repeat constructor. }
  split; [lia|]. split; [exact Hnz|].
  destruct (data_of_nonzero_pushes 4 Sensor.never tt _ ltac:(lia) Hnz)
    as [-> _].
  reflexivity.
Defined.

Lemma update_stores_iff_accepted_witness :
  wf (voltmeter (ratio 5 2)) /\
  _data_length (snd (Sensor.update (second 100) (voltmeter (ratio 5 2))))
  = 128 /\
  _data (snd (Sensor.update (second 100) (voltmeter (ratio 5 2))))
    !! 0%nat = Some (f16 1 2) /\
  _i (snd (Sensor.update (second 100) (voltmeter (ratio 5 2)))) = 1 /\
  _last_timestamp (snd (Sensor.update (second 100) (voltmeter (ratio 5 2))))
  = second 100.
Proof.
  assert (Hwf : wf (voltmeter (ratio 5 2))) by apply init_wf.
  split; [exact Hwf|].
  destruct (update_stores_iff_accepted (second 100) _ Hwf) as [Hl Hst].
  change (accepted (voltmeter (ratio 5 2))) with (Some half) in Hst.
  destruct Hst as (Hd & Hi & Ht). rewrite Hl, Hd, Hi, Ht.
  split; [reflexivity|]. split; [reflexivity|]. split; reflexivity.
Defined.

Lemma update_calls_verify_twice_witness :
  exists ok s',
    Sensor.update (second 100) (Counted.watch (sim 2)) = (Ok ok, s') /\
    Counted.verify_calls s' = 2%nat.
Proof.
  set (r := Sensor.update (second 100) (Counted.watch (sim 2))).
  assert (Hr : r = (Ok false, snd r)) by (vm_compute; reflexivity).
  exists false, (snd r). split; [exact Hr|].
  rewrite (update_calls_verify_twice _ _ _ _ Hr). reflexivity.
Defined.

Lemma resize_discards_history_witness :
  1 <= 4 /\
  Forall valid_call [DoUpdate (second 100)] /\
  Trace.no_resize [DoUpdate (second 100)] /\
  Sensor.data (snd (Sensor.data_length_setter 4 (voltmeter (ratio 5 2))))
  = (Ok [], snd (Sensor.data_length_setter 4 (voltmeter (ratio 5 2)))) /\
  exists l,
    Sensor.data
      (run [DoSetDataLength 4; DoUpdate (second 100)]
         (voltmeter (ratio 5 2)))
    = (Ok l,
       run [DoSetDataLength 4; DoUpdate (second 100)]
         (voltmeter (ratio 5 2))) /\
    Z.of_nat (length l) <= 4.
Proof.
  assert (Hv : Forall valid_call [DoUpdate (second 100)]).
  { constructor; [reflexivity|constructor]. }
  assert (Hn : Trace.no_resize [DoUpdate (second 100)]).
  { constructor; [reflexivity|constructor]. }
  split; [lia|]. split; [exact Hv|]. split; [exact Hn|].
  apply (resize_discards_history 4 _ (voltmeter (ratio 5 2)));
    [lia|exact Hv|exact Hn].
Defined.

Lemma age_since_last_store_witness :
  Forall valid_call [DoUpdate (second 100); DoReset] /\
  fst (Sensor.age (second 160)
         (run [DoUpdate (second 100); DoReset] (voltmeter (ratio 5 2))))
  = Ok (second 60).
Proof.
  assert (Hv : Forall valid_call [DoUpdate (second 100); DoReset]).
  { constructor; [reflexivity|]. constructor; [exact I|constructor]. }
  split; [exact Hv|].
  change (voltmeter (ratio 5 2))
    with (Sensor.__init__ (dev (voltmeter (ratio 5 2)))).
  rewrite (age_since_last_store _ _ (second 160) Hv). reflexivity.
Defined.

Lemma negative_resize_not_rolled_back_witness :
  -3 < 0 /\
  fst (Sensor.data_length_setter (-3) (voltmeter (ratio 5 2)))
  = Raise ValueError /\
  fst (Sensor.data_length
         (snd (Sensor.data_length_setter (-3) (voltmeter (ratio 5 2)))))
  = Ok (-3) /\
  length (_data (snd (Sensor.data_length_setter (-3)
                        (voltmeter (ratio 5 2))))) = 128%nat.
Proof.
  split; [lia|].
  destruct (negative_resize_not_rolled_back (-3) (voltmeter (ratio 5 2)))
    as (Hs & Hl & Hd & _); [lia|].
  rewrite Hl, Hd, Hs. repeat split.
Defined.


Lemma analog_update_verdict_witness :
  wf (voltmeter (ratio 5 2)) /\
  fst (Sensor.update (second 100) (voltmeter (ratio 5 2))) = Ok true /\
  dev (snd (Sensor.update (second 100) (voltmeter (ratio 5 2))))
  = dev (snd (gate (voltmeter (ratio 5 2)))).
Proof.
  assert (Hwf : wf (voltmeter (ratio 5 2))) by apply init_wf.
  split; [exact Hwf|].
  pose proof (analog_update_verdict (second 100) _ Hwf) as Hv.
  change (gate (voltmeter (ratio 5 2)))
    with (Ok (half, true), snd (gate (voltmeter (ratio 5 2)))) in Hv at 1.
  exact Hv.
Defined.

Lemma analog_zero_division_witness :
  (F64.is_zero
     (output_span
        (dev (AnalogSensor.__init__ (steady_adc (ratio 5 2)) None
                (Some (F64.of_Z 0)) None))) = true \/
   F64.is_zero
     (conversion_factor
        (dev (AnalogSensor.__init__ (steady_adc (ratio 5 2)) None
                (Some (F64.of_Z 0)) None))) = true) /\
  fst (Sensor.update (second 100)
         (AnalogSensor.__init__ (steady_adc (ratio 5 2)) None
            (Some (F64.of_Z 0)) None))
  = Raise ZeroDivisionError.
Proof.
  split; [left; reflexivity|].
  apply (analog_zero_division (second 100)
           (AnalogSensor.__init__ (steady_adc (ratio 5 2)) None
              (Some (F64.of_Z 0)) None)).
  left. reflexivity.
Defined.

Lemma flow_update_outcome_witness :
  wf (snd (SFM3200.__init__ (flow_bus [128; 0; 0; 0]))) /\
  fst (Sensor.update (second 100)
         (snd (SFM3200.__init__ (flow_bus [128; 0; 0; 0])))) = Ok true /\
  _last_timestamp
    (snd (Sensor.update (second 100)
            (snd (SFM3200.__init__ (flow_bus [128; 0; 0; 0])))))
  = second 100 /\
  wf (snd (SFM3200.__init__ (flow_bus_failing_at 0 [128; 0; 0; 0]))) /\
  fst (Sensor.update (second 100)
         (snd (SFM3200.__init__ (flow_bus_failing_at 0 [128; 0; 0; 0]))))
  = Raise TransportError.
Proof.
  assert (Hwf : wf (snd (SFM3200.__init__ (flow_bus [128; 0; 0; 0])))).
  { unfold wf. vm_compute. repeat split; discriminate. }
  assert (Hwf' : wf (snd (SFM3200.__init__
                            (flow_bus_failing_at 0 [128; 0; 0; 0])))).
  { unfold wf. vm_compute. repeat split; discriminate. }
  destruct (flow_update_outcome (second 100) _ Hwf)
    as ((Hr & _ & _ & _ & Ht) & _).
  destruct (flow_update_outcome (second 100) _ Hwf') as ((Hr' & _) & _).
  split; [exact Hwf|]. split; [exact Hr|]. split; [exact Ht|].
  split; [exact Hwf'|exact Hr'].
Defined.

Lemma flow_bus_traffic_witness :
  Forall valid_call [DoUpdate (second 100); DoReset] /\
  fst (SFM3200.__init__ (flow_bus [128; 0; 0; 0])) = Ok tt /\
  fst (Sensor.get (run [DoReset] (snd (SFM3200.__init__
                                         (flow_bus [128; 0; 0; 0])))))
  = Raise RuntimeWarning /\
  written
    (dev (run [DoUpdate (second 100); DoReset]
            (snd (SFM3200.__init__ (flow_bus [128; 0; 0; 0])))))
  = [8192; 4096; 8192] /\
  frames_read
    (dev (run [DoUpdate (second 100); DoReset]
            (snd (SFM3200.__init__ (flow_bus [128; 0; 0; 0])))))
  = 1%nat.
Proof.
  assert (Hv : Forall valid_call [DoUpdate (second 100); DoReset]).
  { constructor; [reflexivity|]. constructor; [exact I|constructor]. }
  assert (Hv' : Forall valid_call [DoReset]).
  { constructor; [exact I|constructor]. }
  split; [exact Hv|].
  destruct (flow_bus_traffic (flow_bus [128; 0; 0; 0]) _ Hv)
    as (Hi & _ & Hw & _ & Hr).
  destruct (flow_bus_traffic (flow_bus [128; 0; 0; 0]) _ Hv')
    as (_ & Hg & _).
  split; [exact Hi|]. rewrite (Hg eq_refl), Hw, Hr.
  repeat split.
Defined.

Lemma sim_updates_never_raise_witness :
  Forall valid_call [DoUpdate (second 100); DoReset; DoUpdate (second 101)] /\
  (exists b,
     fst (Sensor.update (second 102)
            (run [DoUpdate (second 100); DoReset; DoUpdate (second 101)]
               (sim 2))) = Ok b) /\
  rng_drawn
    (dev (run [DoUpdate (second 100); DoReset; DoUpdate (second 101)]
            (sim 2))) = 6%nat.
Proof.
  assert (Hv : Forall valid_call
                 [DoUpdate (second 100); DoReset; DoUpdate (second 101)]).
  { constructor; [reflexivity|]. constructor; [exact I|].
    constructor; [reflexivity|constructor]. }
  split; [exact Hv|].
  destruct (sim_updates_never_raise (F64.of_Z 0) (F64.of_Z 100)
              (rng_high_at 2) _ (second 102) Hv) as (Hb & Hd & _).
  split; [exact Hb|exact Hd].
Defined.

Lemma init_kwargs_outcome_witness :
  NoDup [("MUX", 0); ("pig", 99); ("output_span", 3)].*1 /\
  (forall g : string,
     g ∈ AnalogSensor.allowed (fun z => z) ["MUX"; "PGA"; "MODE"; "DR"] ->
     (fun _ : string => false) g = false) /\
  exists attrs,
    AnalogSensor.__init__kwargs (fun z => z) ["MUX"; "PGA"; "MODE"; "DR"]
      (fun _ => 7) (fun _ => false)
      [("MUX", 0); ("pig", 99); ("output_span", 3)] = inr attrs /\
    attrs !! "MUX" = Some 0 /\
    attrs !! "output_span" = Some 3 /\
    attrs !! "PGA" = Some 7 /\
    attrs !! "offset_voltage" = Some 0 /\
    attrs !! "pig" = None.
Proof.
  assert (Hnd : NoDup [("MUX", 0); ("pig", 99); ("output_span", 3)].*1).
  { apply (bool_decide_unpack _). vm_compute. exact I. }
  split; [exact Hnd|]. split; [reflexivity|].
  pose proof (init_kwargs_outcome (fun z => z) ["MUX"; "PGA"; "MODE"; "DR"]
                (fun _ => 7) (fun _ => false)
                [("MUX", 0); ("pig", 99); ("output_span", 3)] Hnd
                (fun _ _ => eq_refl)) as Hout.
  assert (Hr : match AnalogSensor.__init__kwargs (fun z => z)
                       ["MUX"; "PGA"; "MODE"; "DR"] (fun _ => 7)
                       (fun _ => false)
                       [("MUX", 0); ("pig", 99); ("output_span", 3)] with
               | inl _ => false
               | inr _ => true
               end = true) by (vm_compute; reflexivity).
  destruct (AnalogSensor.__init__kwargs _ _ _ _ _) as [e|attrs];
    [discriminate Hr|].
  destruct Hout as (_ & _ & Hset & Hucf & Hdef & Hnone).
  exists attrs. split; [reflexivity|]. repeat split.
  - apply Hset; [|discriminate]. apply list_elem_of_here.
  - apply Hset; [|discriminate].
    apply list_elem_of_further, list_elem_of_further, list_elem_of_here.
  - apply Hucf.
    + apply list_elem_of_further, list_elem_of_here.
    + left. apply (bool_decide_unpack _). vm_compute. exact I.
  - apply (Hdef "offset_voltage" 0).
    + apply list_elem_of_here.
    + apply (bool_decide_unpack _). vm_compute. exact I.
    + apply (bool_decide_unpack _). vm_compute. exact I.
  - apply Hnone. apply (bool_decide_unpack _). vm_compute. exact I.
Defined.

Lemma calibrate_with_arguments_witness :
  [("output_span", F64.of_Z 3); ("gain", F64.of_Z 2)] <> [] /\
  NoDup [("output_span", F64.of_Z 3); ("gain", F64.of_Z 2)].*1 /\
  exists d',
    AnalogSensor.calibrate
      [("output_span", F64.of_Z 3); ("gain", F64.of_Z 2)]
      (fun _ => second 100) (voltmeter (ratio 5 2))
    = (Ok tt, set_dev d' (voltmeter (ratio 5 2))) /\
    output_span d' = F64.of_Z 3 /\
    offset_voltage d' = F64.of_Z 0 /\
    conversion_factor d' = F64.of_Z 1.
Proof.
  assert (Hnd : NoDup [("output_span", F64.of_Z 3);
                       ("gain", F64.of_Z 2)].*1).
  { apply (bool_decide_unpack _). vm_compute. exact I. }
  split; [discriminate|]. split; [exact Hnd|].
  destruct (calibrate_with_arguments
              [("output_span", F64.of_Z 3); ("gain", F64.of_Z 2)]
              (fun _ => second 100) (voltmeter (ratio 5 2))
              ltac:(discriminate) Hnd)
    as (d' & Hc & _ & _ & Hspan & _ & Hoff & _ & Hcf).
  exists d'. split; [exact Hc|]. repeat split.
  - apply Hspan. apply list_elem_of_here.
  - rewrite Hoff; [reflexivity|].
    apply (bool_decide_unpack _). vm_compute. exact I.
  - rewrite Hcf; [reflexivity|].
    apply (bool_decide_unpack _). vm_compute. exact I.
Defined.

Lemma calibrate_on_empty_buffer_witness :
  wf (voltmeter (F64.of_Z (-5))) /\
  fst (Sensor.data (voltmeter (F64.of_Z (-5)))) = Ok [] /\
  gate (voltmeter (F64.of_Z (-5)))
  = (Ok (F64.of_Z (-1), false), snd (gate (voltmeter (F64.of_Z (-5))))) /\
  fst (AnalogSensor.calibrate [] (fun _ => second 100)
         (voltmeter (F64.of_Z (-5)))) = Raise IndexError.
Proof.
  assert (Hwf : wf (voltmeter (F64.of_Z (-5)))) by apply init_wf.
  assert (Hd : fst (Sensor.data (voltmeter (F64.of_Z (-5)))) = Ok [])
    by (vm_compute; reflexivity).
  assert (Hg : gate (voltmeter (F64.of_Z (-5)))
               = (Ok (F64.of_Z (-1), false),
                  snd (gate (voltmeter (F64.of_Z (-5))))))
    by (vm_compute; reflexivity).
  split; [exact Hwf|]. split; [exact Hd|]. split; [exact Hg|].
  apply (calibrate_on_empty_buffer (fun _ => second 100) _ _ _ _ Hwf Hd Hg).
  left. reflexivity.
Defined.
End Instances.
